(** * Exam attempt engine of backend/server.py

    Shallow embedding of the exam authoring and exam attempt routes of
    [backend/server.py]: [create_exam], [update_exam], [publish_exam],
    [archive_exam], [start_exam], [sync_answers] and [submit_exam].

    Modelling choices:
    - a MongoDB collection is a list of documents in insertion order;
      [find_one] returns the first match and [update_one] rewrites the
      first match; [insert_one] appends a document under a new ObjectId,
      modelled as one more than every id of the collection;
    - ObjectIds, and the id strings the routes receive, are [N];
    - marks and counts are [Z]; negative marks, the running score and the
      percentage are Python floats, modelled as exact rationals [Q] (every
      concrete value used below is a dyadic rational, exact as a float);
    - datetimes are [Z] microseconds since the epoch; [now] is an argument,
      the reading of [datetime.now] a route bases its result on; the
      [submitted_at] that [submit_exam] stores and returns comes from two
      later readings of the clock and is not modelled;
    - an answer payload ([Any] in [AnswerSubmit]) is a string or a list of
      strings, the two shapes the question types use; strings are ASCII. *)

From Stdlib Require Import ZArith QArith Qround Qminmax List String Ascii Bool Lia Sorted Permutation Lqa.
Import ListNotations.

Open Scope Z_scope.

(* ------------------------------------------------------------------ *)
(** ** Enums *)

Inductive QuestionType := MCQ_SINGLE | MCQ_MULTI | TRUE_FALSE | FILL_BLANK | CASE_BASED.

Inductive ExamStatus := DRAFT | PUBLISHED | ACTIVE | COMPLETED | ARCHIVED.

Inductive AttemptStatus := IN_PROGRESS | SUBMITTED | EVALUATED | EXPIRED.

Definition QuestionType_eqb (a b : QuestionType) : bool :=
  match a, b with
  | MCQ_SINGLE, MCQ_SINGLE | MCQ_MULTI, MCQ_MULTI | TRUE_FALSE, TRUE_FALSE
  | FILL_BLANK, FILL_BLANK | CASE_BASED, CASE_BASED => true
  | _, _ => false
  end.

Definition ExamStatus_eqb (a b : ExamStatus) : bool :=
  match a, b with
  | DRAFT, DRAFT | PUBLISHED, PUBLISHED | ACTIVE, ACTIVE
  | COMPLETED, COMPLETED | ARCHIVED, ARCHIVED => true
  | _, _ => false
  end.

Definition AttemptStatus_eqb (a b : AttemptStatus) : bool :=
  match a, b with
  | IN_PROGRESS, IN_PROGRESS | SUBMITTED, SUBMITTED
  | EVALUATED, EVALUATED | EXPIRED, EXPIRED => true
  | _, _ => false
  end.

(** HTTP errors raised by the routes; [Crash] is an uncaught Python
    exception (a 500), e.g. indexing the [None] returned by [find_one]. *)
Inductive Error := NotFound | Forbidden | NotAvailable | AlreadySubmitted | EmptyExam | Crash.

(* ------------------------------------------------------------------ *)
(** ** Documents *)

(** An answer payload: [correct_answer] of a question or [answer] of an
    [AnswerSubmit]. *)
Inductive Val := VStr (s : string) | VList (l : list string).

Record Question := mkQuestion {
  q_id : N;
  q_type : QuestionType;
  q_text : string;
  q_correct_answer : Val;
  q_explanation : option string;
  q_marks : Z;
  q_negative_marks : Q
}.

Record Exam := mkExam {
  e_id : N;
  e_title : string;
  e_duration_minutes : Z;
  e_total_marks : Z;
  e_passing_marks : Z;
  e_negative_marking : bool;
  e_show_result_immediately : bool;
  e_question_ids : list N;
  e_status : ExamStatus;
  e_version : Z
}.

(** [AnswerSubmit] *)
Record Answer := mkAnswer {
  ans_question_id : N;
  ans_answer : Val;
  ans_time_spent_seconds : Z;
  ans_flagged : bool
}.

(** One entry of [detailed_results]. *)
Record Detail := mkDetail {
  d_question_id : N;
  d_question_text : string;
  d_your_answer : Val;
  d_correct_answer : Val;
  d_is_correct : bool;
  d_marks_obtained : Q;
  d_explanation : option string;
  d_time_spent_seconds : Z;
  d_flagged : bool
}.

(** The fields [submit_exam] sets on an attempt ([submitted_at] apart). *)
Record Evaluation := mkEvaluation {
  ev_score : Q;
  ev_correct_count : Z;
  ev_incorrect_count : Z;
  ev_unanswered_count : Z;
  ev_percentage : Q;
  ev_passed : bool;
  ev_time_taken_seconds : Z;
  ev_detailed_results : list Detail
}.

Record Attempt := mkAttempt {
  a_id : N;
  a_exam_id : N;
  a_exam_version : Z;
  a_user_id : N;
  a_status : AttemptStatus;
  a_answers : list Answer;
  a_started_at : Z;
  a_last_sync : option Z;
  a_evaluation : option Evaluation
}.

(** The database: collections [questions], [exams], [exam_attempts] and
    the [xp_points] field of [users]. *)
Record DB := mkDB {
  questions : list Question;
  exams : list Exam;
  exam_attempts : list Attempt;
  users_xp : list (N * Z)
}.

(* ------------------------------------------------------------------ *)
(** ** Collection primitives *)

Fixpoint find_first {A} (p : A -> bool) (l : list A) : option A :=
  match l with
  | [] => None
  | x :: r => if p x then Some x else find_first p r
  end.

Fixpoint update_first {A} (p : A -> bool) (f : A -> A) (l : list A) : list A :=
  match l with
  | [] => []
  | x :: r => if p x then f x :: r else x :: update_first p f r
  end.

Definition new_oid (ids : list N) : N := N.succ (fold_right N.max 0%N ids).

Definition find_exam (st : DB) (id : N) : option Exam :=
  find_first (fun e => N.eqb (e_id e) id) (exams st).

Definition find_attempt (st : DB) (id : N) : option Attempt :=
  find_first (fun a => N.eqb (a_id a) id) (exam_attempts st).

(** [db.questions.find({"_id": {"$in": ids}})] *)
Definition questions_in (st : DB) (ids : list N) : list Question :=
  filter (fun q => existsb (N.eqb (q_id q)) ids) (questions st).

(** [sum(q.get("marks", 1) for q in questions)] *)
Definition sum_marks (qs : list Question) : Z :=
  fold_left (fun acc q => acc + q_marks q) qs 0.

(* ------------------------------------------------------------------ *)
(** ** Exam authoring routes *)

(** [ExamCreate] (the fields the model keeps). *)
Record ExamCreate := mkExamCreate {
  c_title : string;
  c_duration_minutes : Z;
  c_total_marks : Z;
  c_passing_marks : Z;
  c_negative_marking : bool;
  c_show_result_immediately : bool;
  c_question_ids : list N
}.

(** [ExamUpdate]: a field is in [update_data] when it is not [None]. *)
Record ExamUpdate := mkExamUpdate {
  u_title : option string;
  u_duration_minutes : option Z;
  u_total_marks : option Z;
  u_passing_marks : option Z;
  u_negative_marking : option bool;
  u_show_result_immediately : option bool;
  u_question_ids : option (list N);
  u_status : option ExamStatus
}.

Definition opt_or {A} (o : option A) (d : A) : A :=
  match o with Some x => x | None => d end.

(** [create_exam]: [total_marks or exam_data.total_marks] keeps the
    supplied value when the computed sum is 0. *)
Definition create_exam (st : DB) (data : ExamCreate) : DB * Exam :=
  let total_marks :=
    match c_question_ids data with
    | [] => 0
    | ids => sum_marks (questions_in st ids)
    end in
  let exam := {|
    e_id := new_oid (map e_id (exams st));
    e_title := c_title data;
    e_duration_minutes := c_duration_minutes data;
    e_total_marks := if Z.eqb total_marks 0 then c_total_marks data else total_marks;
    e_passing_marks := c_passing_marks data;
    e_negative_marking := c_negative_marking data;
    e_show_result_immediately := c_show_result_immediately data;
    e_question_ids := c_question_ids data;
    e_status := DRAFT;
    e_version := 1 |} in
  (mkDB (questions st) (exams st ++ [exam]) (exam_attempts st) (users_xp st), exam).

(** [new_exam.update(update_data)] / [{"$set": update_data}] *)
Definition apply_update (e : Exam) (u : ExamUpdate) : Exam := {|
  e_id := e_id e;
  e_title := opt_or (u_title u) (e_title e);
  e_duration_minutes := opt_or (u_duration_minutes u) (e_duration_minutes e);
  e_total_marks := opt_or (u_total_marks u) (e_total_marks e);
  e_passing_marks := opt_or (u_passing_marks u) (e_passing_marks e);
  e_negative_marking := opt_or (u_negative_marking u) (e_negative_marking e);
  e_show_result_immediately := opt_or (u_show_result_immediately u) (e_show_result_immediately e);
  e_question_ids := opt_or (u_question_ids u) (e_question_ids e);
  e_status := opt_or (u_status u) (e_status e);
  e_version := e_version e |}.

Definition with_total_marks (e : Exam) (t : Z) : Exam := {|
  e_id := e_id e; e_title := e_title e; e_duration_minutes := e_duration_minutes e;
  e_total_marks := t; e_passing_marks := e_passing_marks e;
  e_negative_marking := e_negative_marking e;
  e_show_result_immediately := e_show_result_immediately e;
  e_question_ids := e_question_ids e; e_status := e_status e; e_version := e_version e |}.

Definition with_status (e : Exam) (s : ExamStatus) : Exam := {|
  e_id := e_id e; e_title := e_title e; e_duration_minutes := e_duration_minutes e;
  e_total_marks := e_total_marks e; e_passing_marks := e_passing_marks e;
  e_negative_marking := e_negative_marking e;
  e_show_result_immediately := e_show_result_immediately e;
  e_question_ids := e_question_ids e; e_status := s; e_version := e_version e |}.

(** The clone of the version fork: [new_exam = {**exam}], [_id] dropped,
    [update_data] applied, version bumped, status reset to DRAFT, and a new
    [_id] from [insert_one]. *)
Definition fork_exam (e : Exam) (u : ExamUpdate) (id : N) : Exam :=
  let c := apply_update e u in {|
  e_id := id; e_title := e_title c; e_duration_minutes := e_duration_minutes c;
  e_total_marks := e_total_marks c; e_passing_marks := e_passing_marks c;
  e_negative_marking := e_negative_marking c;
  e_show_result_immediately := e_show_result_immediately c;
  e_question_ids := e_question_ids c; e_status := DRAFT;
  e_version := e_version e + 1 |}.

(** [update_exam] *)
Definition update_exam (st : DB) (exam_id : N) (u : ExamUpdate) : Error + (DB * Exam) :=
  match find_exam st exam_id with
  | None => inl NotFound
  | Some exam =>
      if negb (ExamStatus_eqb (e_status exam) DRAFT) && match u_question_ids u with Some _ => true | None => false end then
        let new_exam := fork_exam exam u (new_oid (map e_id (exams st))) in
        inr (mkDB (questions st) (exams st ++ [new_exam]) (exam_attempts st) (users_xp st),
             new_exam)
      else
        let set_fields (x : Exam) :=
          match u_question_ids u with
          | Some ids => with_total_marks (apply_update x u) (sum_marks (questions_in st ids))
          | None => apply_update x u
          end in
        let st' := mkDB (questions st)
                     (update_first (fun x => N.eqb (e_id x) exam_id) set_fields (exams st))
                     (exam_attempts st) (users_xp st) in
        match find_exam st' exam_id with
        | Some updated => inr (st', updated)
        | None => inl Crash
        end
  end.

(** [publish_exam] *)
Definition publish_exam (st : DB) (exam_id : N) : Error + DB :=
  match find_exam st exam_id with
  | None => inl NotFound
  | Some exam =>
      match e_question_ids exam with
      | [] => inl EmptyExam
      | _ => inr (mkDB (questions st)
                    (update_first (fun x => N.eqb (e_id x) exam_id)
                       (fun x => with_status x PUBLISHED) (exams st))
                    (exam_attempts st) (users_xp st))
      end
  end.

(** [archive_exam] (single tenant: the tenant filter always matches). *)
Definition archive_exam (st : DB) (exam_id : N) : Error + DB :=
  match find_exam st exam_id with
  | None => inl NotFound
  | Some _ => inr (mkDB (questions st)
                    (update_first (fun x => N.eqb (e_id x) exam_id)
                       (fun x => with_status x ARCHIVED) (exams st))
                    (exam_attempts st) (users_xp st))
  end.

(* ------------------------------------------------------------------ *)
(** ** Python string helpers used by the answer check *)

Definition is_py_space (c : ascii) : bool :=
  let n := nat_of_ascii c in
  ((9 <=? n) && (n <=? 13))%nat || ((28 <=? n) && (n <=? 32))%nat.

(** [str.lower] on ASCII *)
Definition lower_char (c : ascii) : ascii :=
  let n := nat_of_ascii c in
  if ((65 <=? n) && (n <=? 90))%nat then ascii_of_nat (n + 32) else c.

Definition py_lower (s : string) : string :=
  string_of_list_ascii (map lower_char (list_ascii_of_string s)).

Fixpoint drop_spaces (l : list ascii) : list ascii :=
  match l with
  | c :: r => if is_py_space c then drop_spaces r else l
  | [] => []
  end.

(** [str.strip] *)
Definition py_strip (s : string) : string :=
  string_of_list_ascii (rev (drop_spaces (rev (drop_spaces (list_ascii_of_string s))))).

Definition hex_digit (n : nat) : ascii :=
  if (n <? 10)%nat then ascii_of_nat (48 + n) else ascii_of_nat (87 + n).

(** The double quote character. *)
Definition dquote : ascii := ascii_of_nat 34.

(** [repr] of a string element of a list. *)
Definition py_repr (s : string) : string :=
  let cs := list_ascii_of_string s in
  let q := if existsb (Ascii.eqb "'"%char) cs && negb (existsb (Ascii.eqb dquote) cs)
           then dquote else "'"%char in
  let esc (c : ascii) : list ascii :=
    let n := nat_of_ascii c in
    if Ascii.eqb c q || Ascii.eqb c "\"%char then ["\"%char; c]
    else if (n =? 9)%nat then ["\"%char; "t"%char]
    else if (n =? 10)%nat then ["\"%char; "n"%char]
    else if (n =? 13)%nat then ["\"%char; "r"%char]
    else if (n <? 32)%nat || (n =? 127)%nat
    then ["\"%char; "x"%char; hex_digit (n / 16); hex_digit (n mod 16)]
    else [c] in
  string_of_list_ascii (q :: flat_map esc cs ++ [q]).

Fixpoint join (sep : string) (l : list string) : string :=
  match l with
  | [] => ""
  | [x] => x
  | x :: r => x ++ sep ++ join sep r
  end.

(** [str(value)] *)
Definition py_str (v : Val) : string :=
  match v with
  | VStr s => s
  | VList l => "[" ++ join ", " (map py_repr l) ++ "]"
  end.

(** [set(v) if isinstance(v, list) else {v}] *)
Definition to_set (v : Val) : list string :=
  match v with VStr s => [s] | VList l => l end.

(** Python set equality of two sets built from lists. *)
Definition set_eqb (a b : list string) : bool :=
  forallb (fun x => existsb (String.eqb x) b) a && forallb (fun x => existsb (String.eqb x) a) b.

(** The correctness test of [submit_exam]. *)
Definition is_correct (q : Question) (v : Val) : bool :=
  if QuestionType_eqb (q_type q) MCQ_MULTI then
    set_eqb (to_set (q_correct_answer q)) (to_set v)
  else
    String.eqb (py_strip (py_lower (py_str v))) (py_strip (py_lower (py_str (q_correct_answer q)))).

(* ------------------------------------------------------------------ *)
(** ** Numeric helpers *)

(** Strict order test on rationals. *)
Definition Qlt_bool (a b : Q) : bool := negb (Qle_bool b a).

(** [max(0, x)]: Python keeps the first argument unless the second is larger. *)
Definition py_max0 (x : Q) : Q := if Qlt_bool 0 x then x else 0%Q.

(** [int(x)] on a float: truncation toward zero. *)
Definition py_int (x : Q) : Z := Z.quot (Qnum x) (Zpos (Qden x)).

(** [round(x, 2)]: nearest multiple of 1/100, ties to even. *)
Definition py_round2 (x : Q) : Q :=
  let y := (x * 100)%Q in
  let n := Qfloor y in
  let f := (y - inject_Z n)%Q in
  let r := if Qlt_bool f (1 # 2) then n
           else if Qlt_bool (1 # 2) f then n + 1
           else if Z.even n then n else n + 1 in
  (inject_Z r / 100)%Q.

(** [timedelta.seconds]: the seconds component, [0 <= . < 86400]; the
    whole days are in [timedelta.days]. *)
Definition td_seconds (us : Z) : Z := (us / 1000000) mod 86400.

(** [int(timedelta.total_seconds())] *)
Definition td_total_seconds_int (us : Z) : Z := Z.quot us 1000000.

(* ------------------------------------------------------------------ *)
(** ** start_exam and sync_answers *)

Record StartResp := mkStartResp {
  sr_attempt_id : N;
  sr_started_at : Z;
  sr_time_remaining_seconds : Z;
  sr_saved_answers : list Answer
}.

Definition startable (s : ExamStatus) : bool :=
  ExamStatus_eqb s PUBLISHED || ExamStatus_eqb s ACTIVE.

Definition is_active_for (exam_id user_id : N) (a : Attempt) : bool :=
  N.eqb (a_exam_id a) exam_id && N.eqb (a_user_id a) user_id
  && AttemptStatus_eqb (a_status a) IN_PROGRESS.

(** [start_exam]; the question list of the response (shuffled with
    [random.shuffle]) is not modelled. *)
Definition start_exam (st : DB) (exam_id user_id : N) (now : Z) : Error + (DB * StartResp) :=
  match find_exam st exam_id with
  | None => inl NotFound
  | Some exam =>
      if negb (startable (e_status exam)) then inl NotAvailable else
      match find_first (is_active_for exam_id user_id) (exam_attempts st) with
      | Some existing =>
          let time_elapsed := td_seconds (now - a_started_at existing) in
          let time_remaining := Z.max 0 (e_duration_minutes exam * 60 - time_elapsed) in
          inr (st, mkStartResp (a_id existing) (a_started_at existing) time_remaining
                                (a_answers existing))
      | None =>
          let attempt := {|
            a_id := new_oid (map a_id (exam_attempts st));
            a_exam_id := exam_id;
            a_exam_version := e_version exam;
            a_user_id := user_id;
            a_status := IN_PROGRESS;
            a_answers := [];
            a_started_at := now;
            a_last_sync := None;
            a_evaluation := None |} in
          inr (mkDB (questions st) (exams st) (exam_attempts st ++ [attempt]) (users_xp st),
               mkStartResp (a_id attempt) now (e_duration_minutes exam * 60) [])
      end
  end.

Definition with_sync (a : Attempt) (answers : list Answer) (now : Z) : Attempt := {|
  a_id := a_id a; a_exam_id := a_exam_id a; a_exam_version := a_exam_version a;
  a_user_id := a_user_id a; a_status := a_status a; a_answers := answers;
  a_started_at := a_started_at a; a_last_sync := Some now; a_evaluation := a_evaluation a |}.

(** [sync_answers]; returns [synced_count]. *)
Definition sync_answers (st : DB) (attempt_id user_id : N) (answers : list Answer) (now : Z)
  : Error + (DB * Z) :=
  match find_attempt st attempt_id with
  | None => inl NotFound
  | Some attempt =>
      if negb (N.eqb (a_user_id attempt) user_id) then inl NotFound else
      if negb (AttemptStatus_eqb (a_status attempt) IN_PROGRESS) then inl AlreadySubmitted else
      inr (mkDB (questions st) (exams st)
             (update_first (fun x => N.eqb (a_id x) attempt_id)
                (fun x => with_sync x answers now) (exam_attempts st))
             (users_xp st),
           Z.of_nat (List.length answers))
  end.

(* ------------------------------------------------------------------ *)
(** ** submit_exam *)

(** Loop variables of the evaluation loop. *)
Record EvalState := mkEvalState {
  es_score : Q;
  es_correct_count : Z;
  es_incorrect_count : Z;
  es_detailed_results : list Detail;
  es_answered_ids : list N   (* a Python set: no duplicates *)
}.

(** [questions.get(qid)] on the dict built from the query result: a later
    document with the same key overwrites an earlier one. *)
Definition dict_get (qs : list Question) (qid : N) : option Question :=
  find_first (fun q => N.eqb (q_id q) qid) (rev qs).

(** [answered_ids.add(x)] *)
Definition set_add (x : N) (s : list N) : list N :=
  if existsb (N.eqb x) s then s else s ++ [x].

(** One iteration of [for answer in submission.answers]. *)
Definition eval_step (negative_marking : bool) (qs : list Question)
    (es : EvalState) (answer : Answer) : EvalState :=
  let answered := set_add (ans_question_id answer) (es_answered_ids es) in
  match dict_get qs (ans_question_id answer) with
  | None => mkEvalState (es_score es) (es_correct_count es) (es_incorrect_count es)
                        (es_detailed_results es) answered
  | Some question =>
      let ok := is_correct question (ans_answer answer) in
      let score :=
        if ok then (es_score es + inject_Z (q_marks question))%Q
        else if negative_marking then (es_score es - q_negative_marks question)%Q
        else es_score es in
      let detail := {|
        d_question_id := ans_question_id answer;
        d_question_text := q_text question;
        d_your_answer := ans_answer answer;
        d_correct_answer := q_correct_answer question;
        d_is_correct := ok;
        d_marks_obtained :=
          if ok then inject_Z (q_marks question)
          else if negative_marking then (- q_negative_marks question)%Q else 0%Q;
        d_explanation := q_explanation question;
        d_time_spent_seconds := ans_time_spent_seconds answer;
        d_flagged := ans_flagged answer |} in
      mkEvalState score
        (if ok then es_correct_count es + 1 else es_correct_count es)
        (if ok then es_incorrect_count es else es_incorrect_count es + 1)
        (es_detailed_results es ++ [detail]) answered
  end.

Definition eval_init : EvalState := mkEvalState 0%Q 0 0 [] [].

Definition evaluate (negative_marking : bool) (qs : list Question) (answers : list Answer)
  : EvalState :=
  fold_left (eval_step negative_marking qs) answers eval_init.

Record SubmitResp := mkSubmitResp {
  sp_id : N;
  sp_score : Q;
  sp_total_marks : Z;
  sp_percentage : Q;
  sp_passed : bool;
  sp_correct_count : Z;
  sp_incorrect_count : Z;
  sp_unanswered_count : Z;
  sp_time_taken_seconds : Z;
  sp_xp_earned : Z;
  sp_detailed_results : option (list Detail)
}.

Definition with_evaluation (a : Attempt) (answers : list Answer) (ev : Evaluation) : Attempt := {|
  a_id := a_id a; a_exam_id := a_exam_id a; a_exam_version := a_exam_version a;
  a_user_id := a_user_id a; a_status := EVALUATED; a_answers := answers;
  a_started_at := a_started_at a; a_last_sync := a_last_sync a; a_evaluation := Some ev |}.

(** [{"$inc": {"xp_points": n}}] on the user document. *)
Definition inc_xp (user_id : N) (n : Z) (us : list (N * Z)) : list (N * Z) :=
  update_first (fun p => N.eqb (fst p) user_id) (fun p => (fst p, snd p + n)) us.

(** The fields [submit_exam] writes to the attempt once the attempt and
    its exam are found; [score] is the unfloored running total. *)
Definition evaluation_of (st : DB) (attempt : Attempt) (exam : Exam) (answers : list Answer)
    (now : Z) : Evaluation :=
  let es := evaluate (e_negative_marking exam) (questions_in st (e_question_ids exam)) answers in
  let score := es_score es in
  let unanswered_count :=
    Z.of_nat (List.length (e_question_ids exam)) - Z.of_nat (List.length (es_answered_ids es)) in
  let time_taken := td_total_seconds_int (now - a_started_at attempt) in
  let percentage :=
    if 0 <? e_total_marks exam
    then (score / inject_Z (e_total_marks exam) * 100)%Q else 0%Q in
  let passed := Qle_bool (inject_Z (e_passing_marks exam)) score in
  {| ev_score := py_max0 score;
     ev_correct_count := es_correct_count es;
     ev_incorrect_count := es_incorrect_count es;
     ev_unanswered_count := unanswered_count;
     ev_percentage := percentage;
     ev_passed := passed;
     ev_time_taken_seconds := time_taken;
     ev_detailed_results := es_detailed_results es |}.

(** [xp_earned = int(score * 10) + (50 if passed else 0)], with the
    unfloored [score]. *)
Definition xp_earned_of (st : DB) (exam : Exam) (answers : list Answer) (passed : bool) : Z :=
  let es := evaluate (e_negative_marking exam) (questions_in st (e_question_ids exam)) answers in
  py_int (es_score es * 10)%Q + (if passed then 50 else 0).

Definition submit_eval (st : DB) (attempt_id user_id : N) (attempt : Attempt) (exam : Exam)
    (answers : list Answer) (now : Z) : DB * SubmitResp :=
  let ev := evaluation_of st attempt exam answers now in
  let xp_earned := xp_earned_of st exam answers (ev_passed ev) in
  let st' := mkDB (questions st) (exams st)
               (update_first (fun x => N.eqb (a_id x) attempt_id)
                  (fun x => with_evaluation x answers ev) (exam_attempts st))
               (inc_xp user_id xp_earned (users_xp st)) in
  (st', {|
    sp_id := attempt_id;
    sp_score := ev_score ev;
    sp_total_marks := e_total_marks exam;
    sp_percentage := py_round2 (ev_percentage ev);
    sp_passed := ev_passed ev;
    sp_correct_count := ev_correct_count ev;
    sp_incorrect_count := ev_incorrect_count ev;
    sp_unanswered_count := ev_unanswered_count ev;
    sp_time_taken_seconds := ev_time_taken_seconds ev;
    sp_xp_earned := xp_earned;
    sp_detailed_results :=
      if e_show_result_immediately exam then Some (ev_detailed_results ev) else None |}).

(** [submit_exam] *)
Definition submit_exam (st : DB) (attempt_id user_id : N) (answers : list Answer) (now : Z)
  : Error + (DB * SubmitResp) :=
  match find_attempt st attempt_id with
  | None => inl NotFound
  | Some attempt =>
      if negb (N.eqb (a_user_id attempt) user_id) then inl Forbidden else
      if negb (AttemptStatus_eqb (a_status attempt) IN_PROGRESS) then inl AlreadySubmitted else
      match find_exam st (a_exam_id attempt) with
      | None => inl Crash
      | Some exam => inr (submit_eval st attempt_id user_id attempt exam answers now)
      end
  end.

(* ------------------------------------------------------------------ *)
(** ** Sequential calls *)

Inductive Op :=
| OCreateExam (data : ExamCreate)
| OUpdateExam (exam_id : N) (u : ExamUpdate)
| OPublishExam (exam_id : N)
| OArchiveExam (exam_id : N)
| OStartExam (exam_id user_id : N) (now : Z)
| OSyncAnswers (attempt_id user_id : N) (answers : list Answer) (now : Z)
| OSubmitExam (attempt_id user_id : N) (answers : list Answer) (now : Z).

(** The database after one request; a failed request writes nothing. *)
Definition run_op (st : DB) (o : Op) : DB :=
  match o with
  | OCreateExam d => fst (create_exam st d)
  | OUpdateExam id u => match update_exam st id u with inr (st', _) => st' | inl _ => st end
  | OPublishExam id => match publish_exam st id with inr st' => st' | inl _ => st end
  | OArchiveExam id => match archive_exam st id with inr st' => st' | inl _ => st end
  | OStartExam e u now => match start_exam st e u now with inr (st', _) => st' | inl _ => st end
  | OSyncAnswers a u ans now =>
      match sync_answers st a u ans now with inr (st', _) => st' | inl _ => st end
  | OSubmitExam a u ans now =>
      match submit_exam st a u ans now with inr (st', _) => st' | inl _ => st end
  end.

Definition run_ops (st : DB) (os : list Op) : DB := fold_left run_op os st.

Definition empty_db (qs : list Question) (us : list (N * Z)) : DB := mkDB qs [] [] us.

(* ------------------------------------------------------------------ *)
(** ** Readings of the specification *)

(** Contribution of one submitted answer to the raw score: [+marks] when
    correct, [-negative_marks] when incorrect under negative marking. *)
Definition contribution (negative_marking : bool) (qs : list Question) (a : Answer) : Q :=
  match dict_get qs (ans_question_id a) with
  | None => 0%Q
  | Some q =>
      if is_correct q (ans_answer a) then inject_Z (q_marks q)
      else if negative_marking then (- q_negative_marks q)%Q else 0%Q
  end.

(** raw_score: the sum of the contributions of the evaluated answers. *)
Fixpoint spec_raw_score (negative_marking : bool) (qs : list Question) (answers : list Answer) : Q :=
  match answers with
  | [] => 0%Q
  | a :: r => (contribution negative_marking qs a + spec_raw_score negative_marking qs r)%Q
  end.

(** The raw score of a submission against the exam bound to an attempt. *)
Definition raw_score (st : DB) (exam : Exam) (answers : list Answer) : Q :=
  spec_raw_score (e_negative_marking exam) (questions_in st (e_question_ids exam)) answers.

(** [percentage = (final_score / exam.total_marks) * 100 if total_marks > 0 else 0] *)
Definition spec_percentage (final_score : Q) (total_marks : Z) : Q :=
  if 0 <? total_marks then (final_score / inject_Z total_marks * 100)%Q else 0%Q.

(** The XP balance of a user. *)
Definition xp_of (us : list (N * Z)) (user_id : N) : option Z :=
  option_map snd (find_first (fun p => N.eqb (fst p) user_id) us).

(** At most one IN_PROGRESS attempt per (user, exam) pair. *)
Definition at_most_one_active (l : list Attempt) : Prop :=
  forall exam_id user_id, (List.length (filter (is_active_for exam_id user_id) l) <= 1)%nat.

(** Set equality of the normalised answers, as a proposition. *)
Definition same_set (a b : list string) : Prop := forall x, In x a <-> In x b.

(** The text normalisation the spec names: lowercase, then trim. *)
Definition normalise (s : string) : string := py_strip (py_lower s).

(** Exam questions that no submitted answer refers to. *)
Definition spec_unanswered (question_ids : list N) (answers : list Answer) : Z :=
  Z.of_nat (List.length
    (filter (fun qid => negb (existsb (fun a => N.eqb (ans_question_id a) qid) answers))
       question_ids)).

(** [max(0, duration_minutes*60 - elapsed_seconds_since_start)] with the
    elapsed time counted in whole seconds. *)
Definition spec_time_remaining (duration_minutes started_at now : Z) : Z :=
  Z.max 0 (duration_minutes * 60 - (now - started_at) / 1000000).

(** The sum of the marks of the stored questions that [question_ids]
    refers to. *)
Definition referenced_marks (st : DB) (question_ids : list N) : Z :=
  sum_marks (questions_in st question_ids).

(* ------------------------------------------------------------------ *)
(** ** Further routes: deletion, reading attempts, listings, dashboard

    Every route below runs for one tenant, so the [tenant_id] filters
    always match; [serialize_doc] and the timestamps it formats are not
    modelled. A cursor [.sort(...)] is applied before [.skip(...)] and
    [.limit(...)] whatever the order of the calls; documents with equal
    sort keys are taken in insertion order. *)

Inductive UserRole := STUDENT | TEACHER | MANAGER | ADMIN.

Definition UserRole_eqb (a b : UserRole) : bool :=
  match a, b with
  | STUDENT, STUDENT | TEACHER, TEACHER | MANAGER, MANAGER | ADMIN, ADMIN => true
  | _, _ => false
  end.

(** [delete_exam]: a soft delete ([deleted_at] is not modelled). *)
Definition delete_exam (st : DB) (exam_id : N) : Error + DB :=
  match find_exam st exam_id with
  | None => inl NotFound
  | Some _ => inr (mkDB (questions st)
                    (update_first (fun x => N.eqb (e_id x) exam_id)
                       (fun x => with_status x ARCHIVED) (exams st))
                    (exam_attempts st) (users_xp st))
  end.

(** [st'] keeps the questions of [st] and its exam and attempt ids, in
    order, possibly followed by new ids, and has no repeated id where [st]
    has none. *)
Definition ids_extend (st st' : DB) : Prop :=
  questions st' = questions st /\
  (exists le, map e_id (exams st') = map e_id (exams st) ++ le) /\
  (exists la, map a_id (exam_attempts st') = map a_id (exam_attempts st) ++ la) /\
  (NoDup (map e_id (exams st)) -> NoDup (map e_id (exams st'))) /\
  (NoDup (map a_id (exam_attempts st)) -> NoDup (map a_id (exam_attempts st'))).

(** Insertion of [x] before the first element it comes [before]. *)
Fixpoint insert_by {A} (before : A -> A -> bool) (x : A) (l : list A) : list A :=
  match l with
  | [] => [x]
  | y :: r => if before x y then x :: l else y :: insert_by before x r
  end.

(** Stable insertion sort: elements that [before] does not separate keep
    their order. *)
Definition sort_by {A} (before : A -> A -> bool) (l : list A) : list A :=
  fold_left (fun acc x => insert_by before x acc) l [].

(** [exam.get("title") if exam else "Unknown"] *)
Definition exam_title_of (st : DB) (a : Attempt) : string :=
  match find_exam st (a_exam_id a) with Some e => e_title e | None => "Unknown" end.

(** An attempt document with the [exam_title] the read routes add. *)
Record AttemptView := mkAttemptView {
  av_attempt : Attempt;
  av_exam_title : string
}.

(** [get_attempt]: students and teachers read their own attempts only. *)
Definition get_attempt (st : DB) (attempt_id user_id : N) (role : UserRole)
  : Error + AttemptView :=
  match find_attempt st attempt_id with
  | None => inl NotFound
  | Some attempt =>
      if negb (N.eqb (a_user_id attempt) user_id)
         && negb (existsb (UserRole_eqb role) [ADMIN; MANAGER])
      then inl Forbidden
      else inr (mkAttemptView attempt (exam_title_of st attempt))
  end.

(** The query of [get_attempts]: the caller's attempts, of one exam when
    [exam_id] is given. *)
Definition attempt_query (user_id : N) (exam_id : option N) (a : Attempt) : bool :=
  N.eqb (a_user_id a) user_id
  && match exam_id with Some e => N.eqb (a_exam_id a) e | None => true end.

(** [sort("started_at", DESCENDING)] *)
Definition started_later (x y : Attempt) : bool := a_started_at y <? a_started_at x.

(** [get_attempts]: one page and the [total] of matching attempts. *)
Definition get_attempts (st : DB) (user_id : N) (exam_id : option N) (skip limit : nat)
  : list AttemptView * Z :=
  let matching := filter (attempt_query user_id exam_id) (exam_attempts st) in
  (map (fun a => mkAttemptView a (exam_title_of st a))
     (firstn limit (skipn skip (sort_by started_later matching))),
   Z.of_nat (List.length matching)).

(** The query of [get_exams] without [category_id]: students see
    PUBLISHED and ACTIVE exams whatever [status] they pass. *)
Definition exam_query (role : UserRole) (status : option ExamStatus) (e : Exam) : bool :=
  if UserRole_eqb role STUDENT then existsb (ExamStatus_eqb (e_status e)) [PUBLISHED; ACTIVE]
  else match status with Some s => ExamStatus_eqb (e_status e) s | None => true end.

(** [get_exams] without [category_id]: one page (newest first; an exam's
    [created_at] is the time it was inserted, so newest first is the
    reverse insertion order) and the [total] of matching exams. *)
Definition get_exams (st : DB) (role : UserRole) (status : option ExamStatus) (skip limit : nat)
  : list Exam * Z :=
  let matching := filter (exam_query role status) (exams st) in
  (firstn limit (skipn skip (rev matching)), Z.of_nat (List.length matching)).

(** [a.get("percentage", 0)] and [a.get("passed", False)] *)
Definition stored_percentage (a : Attempt) : Q :=
  match a_evaluation a with Some ev => ev_percentage ev | None => 0%Q end.

Definition stored_passed (a : Attempt) : bool :=
  match a_evaluation a with Some ev => ev_passed ev | None => false end.

Definition is_evaluated (a : Attempt) : bool := AttemptStatus_eqb (a_status a) EVALUATED.

(** [sum(a.get("percentage", 0) for a in l) / len(l) if l else 0] *)
Definition average_percentage (l : list Attempt) : Q :=
  match l with
  | [] => 0%Q
  | _ => (fold_left (fun acc a => acc + stored_percentage a) l 0
          / inject_Z (Z.of_nat (List.length l)))%Q
  end.

(** [sum(1 for a in l if a.get("passed", False)) / len(l) * 100 if l else 0] *)
Definition pass_rate (l : list Attempt) : Q :=
  match l with
  | [] => 0%Q
  | _ => (inject_Z (Z.of_nat (List.length (filter stored_passed l)))
          / inject_Z (Z.of_nat (List.length l)) * 100)%Q
  end.

(** The fields of [get_dashboard_stats] computed from the modelled
    collections; [my_*] for students, the tenant-wide ones otherwise. *)
Record DashboardStats := mkDashboardStats {
  ds_total_exams : Z;
  ds_total_attempts : Z;
  ds_exams_taken : option Z;   (* my_exams_taken *)
  ds_average_score : Q;        (* my_average_score / average_score *)
  ds_pass_rate : Q;            (* my_pass_rate / pass_rate *)
  ds_xp_points : option Z      (* my_xp_points *)
}.

Definition get_dashboard_stats (st : DB) (user_id : N) (role : UserRole) : DashboardStats :=
  let total_exams :=
    Z.of_nat (List.length (filter (fun e => negb (ExamStatus_eqb (e_status e) DRAFT)) (exams st))) in
  let total_attempts := Z.of_nat (List.length (exam_attempts st)) in
  if UserRole_eqb role STUDENT then
    let my_attempts :=
      filter (fun a => N.eqb (a_user_id a) user_id && is_evaluated a) (exam_attempts st) in
    mkDashboardStats total_exams total_attempts (Some (Z.of_nat (List.length my_attempts)))
      (average_percentage my_attempts) (pass_rate my_attempts)
      (Some (opt_or (xp_of (users_xp st) user_id) 0))
  else
    let all_attempts := filter is_evaluated (exam_attempts st) in
    mkDashboardStats total_exams total_attempts None
      (average_percentage all_attempts) (pass_rate all_attempts) None.

(** [started_at.strftime("%Y-%m-%d")] in UTC, as a day number; for years
    1000 to 9999 the strings sort as the day numbers do. *)
Definition day_of (t : Z) : Z := t / 86400000000.

(** A value of [daily_data]. *)
Record DayData := mkDayData {
  dd_attempts : Z;
  dd_total_score : Q;
  dd_passed : Z
}.

Definition add_to_day (a : Attempt) (d : DayData) : DayData :=
  mkDayData (dd_attempts d + 1) (dd_total_score d + stored_percentage a)
            (if stored_passed a then dd_passed d + 1 else dd_passed d).

(** The three updates of [daily_data[date_key]] on a [defaultdict], kept
    as an association list in first-insertion order. *)
Fixpoint bump_day (key : Z) (a : Attempt) (dd : list (Z * DayData)) : list (Z * DayData) :=
  match dd with
  | [] => [(key, add_to_day a (mkDayData 0 0 0))]
  | (k, d) :: r => if Z.eqb k key then (k, add_to_day a d) :: r else (k, d) :: bump_day key a r
  end.

Record ChartPoint := mkChartPoint {
  cp_date : Z;
  cp_attempts : Z;
  cp_average_score : Q;
  cp_pass_rate : Q
}.

Definition chart_point (kd : Z * DayData) : ChartPoint :=
  let (k, d) := kd in
  mkChartPoint k (dd_attempts d)
    (if 0 <? dd_attempts d
     then py_round2 (dd_total_score d / inject_Z (dd_attempts d)) else 0%Q)
    (if 0 <? dd_attempts d
     then py_round2 (inject_Z (dd_passed d) / inject_Z (dd_attempts d) * 100) else 0%Q).

(** The query of [get_performance_chart]. *)
Definition chart_query (user_id : N) (role : UserRole) (start_date : Z) (a : Attempt) : bool :=
  (if UserRole_eqb role STUDENT then N.eqb (a_user_id a) user_id else true)
  && (start_date <=? a_started_at a) && is_evaluated a.

(** [get_performance_chart]; [days] days back from [now]. *)
Definition get_performance_chart (st : DB) (user_id : N) (role : UserRole) (days now : Z)
  : list ChartPoint :=
  let start_date := now - days * 86400000000 in
  let attempts := sort_by (fun x y => a_started_at x <? a_started_at y)
                    (filter (chart_query user_id role start_date) (exam_attempts st)) in
  let daily_data := fold_left (fun dd a => bump_day (day_of (a_started_at a)) a dd) attempts [] in
  map chart_point (sort_by (fun x y => fst x <? fst y) daily_data).

(** Every day of [daily_data] has attempts, at most as many passes as
    attempts, and is the day of one of the attempts read. *)
Definition day_ok (src : list Attempt) (kd : Z * DayData) : Prop :=
  (0 < dd_attempts (snd kd))%Z /\ (0 <= dd_passed (snd kd) <= dd_attempts (snd kd))%Z /\
  exists a, In a src /\ day_of (a_started_at a) = fst kd.

(** A user document, with the fields [get_leaderboard] reads. *)
Record UserDoc := mkUserDoc {
  ud_id : N;
  ud_name : string;
  ud_role : UserRole;
  ud_is_active : bool;
  ud_xp_points : Z
}.

(** [get_leaderboard]: [(rank, user)] pairs. *)
Definition get_leaderboard (users : list UserDoc) (limit : nat) : list (Z * UserDoc) :=
  let top := firstn limit
               (sort_by (fun x y => ud_xp_points y <? ud_xp_points x)
                  (filter (fun u => UserRole_eqb (ud_role u) STUDENT && ud_is_active u) users)) in
  combine (map (fun i => Z.of_nat i + 1) (seq 0 (List.length top))) top.

(* ------------------------------------------------------------------ *)
(** ** Concrete inputs *)

Definition fx_questions : list Question := [
  mkQuestion 1%N MCQ_SINGLE "Question one" (VStr "a") None 5 0;
  mkQuestion 2%N MCQ_SINGLE "Question two" (VStr "b") None 3 10;
  mkQuestion 3%N MCQ_SINGLE "Question three" (VStr "c") None 1 0;
  mkQuestion 4%N MCQ_SINGLE "Question four" (VStr "d") None 1 (1 # 4)].

(** Exam 1, 60 minutes, negative marking on. *)
Definition fx_exam (total_marks passing_marks : Z) (question_ids : list N) (status : ExamStatus)
  : Exam := mkExam 1%N "Exam" 60 total_marks passing_marks true true question_ids status 1.

(** One IN_PROGRESS attempt 1 of user 7 on exam 1, started at time 0. *)
Definition fx_db (exam : Exam) : DB :=
  mkDB fx_questions [exam] [mkAttempt 1%N 1%N 1 7%N IN_PROGRESS [] 0 None None] [(7%N, 0)].

Definition fx_answer (question_id : N) (s : string) : Answer := mkAnswer question_id (VStr s) 0 false.

(* ------------------------------------------------------------------ *)
(** ** Lemmas on the collection primitives *)

Section Lists.
Context {A : Type}.
Implicit Types (p q : A -> bool) (f : A -> A) (l : list A).

Lemma find_first_some p l x : find_first p l = Some x -> p x = true /\ In x l.
Proof.
  induction l as [|y l IH]; simpl; [discriminate|].
  destruct (p y) eqn:Hy; [intros [= <-]; auto|].
  intros H; destruct (IH H); auto.
Qed.

Lemma find_first_none p l : find_first p l = None -> filter p l = [].
Proof.
  induction l as [|y l IH]; simpl; auto.
  destruct (p y); [discriminate|auto].
Qed.

Lemma find_first_app_l p l m x : find_first p l = Some x -> find_first p (l ++ m) = Some x.
Proof.
  induction l as [|y l IH]; simpl; [discriminate|].
  destruct (p y); auto.
Qed.

Lemma find_first_app_r p l m : find_first p l = None -> find_first p (l ++ m) = find_first p m.
Proof.
  induction l as [|y l IH]; simpl; auto.
  destruct (p y); [discriminate|auto].
Qed.

Lemma find_first_update_same p f l :
  (forall x, p (f x) = p x) -> find_first p (update_first p f l) = option_map f (find_first p l).
Proof.
  intros Hf; induction l as [|y l IH]; simpl; auto.
  destruct (p y) eqn:Hy; simpl; [rewrite Hf, Hy; auto|rewrite Hy; auto].
Qed.

Lemma find_first_update_other p p' f l :
  (forall x, p' x = true -> p x = false /\ p (f x) = false) ->
  find_first p (update_first p' f l) = find_first p l.
Proof.
  intros Hf; induction l as [|y l IH]; simpl; auto.
  destruct (p' y) eqn:Hy; simpl.
  - destruct (Hf y Hy) as [H1 H2]; rewrite H1, H2; auto.
  - destruct (p y); auto.
Qed.

Lemma filter_update_le p q f l :
  (forall x, q (f x) = true -> q x = true) ->
  (List.length (filter q (update_first p f l)) <= List.length (filter q l))%nat.
Proof.
  intros Hf; induction l as [|y l IH]; simpl; auto.
  destruct (p y); simpl.
  - destruct (q (f y)) eqn:E1; [rewrite (Hf _ E1); simpl; lia|].
    destruct (q y); simpl; lia.
  - destruct (q y); simpl; lia.
Qed.

End Lists.

(* ------------------------------------------------------------------ *)
(** ** The evaluation loop *)

Open Scope Q_scope.

Lemma eval_step_score n qs es a :
  es_score (eval_step n qs es a) == es_score es + contribution n qs a.
Proof.
  unfold eval_step, contribution.
  destruct (dict_get qs (ans_question_id a)) as [q|]; simpl; [|ring].
  destruct (is_correct q (ans_answer a)); [simpl; ring|].
  destruct n; simpl; ring.
Qed.

Lemma fold_eval_score n qs answers es :
  es_score (fold_left (eval_step n qs) answers es) == es_score es + spec_raw_score n qs answers.
Proof.
  revert es; induction answers as [|a r IH]; intros es; simpl; [ring|].
  rewrite IH, eval_step_score; ring.
Qed.

Lemma evaluate_score n qs answers :
  es_score (evaluate n qs answers) == spec_raw_score n qs answers.
Proof. unfold evaluate; rewrite fold_eval_score; simpl; ring. Qed.

Lemma py_max0_nonneg x : 0 <= py_max0 x.
Proof.
  unfold py_max0, Qlt_bool; destruct (Qle_bool x 0) eqn:E; simpl.
  - apply Qle_refl.
  - apply Qlt_le_weak, Qnot_le_lt; intros H; apply Qle_bool_iff in H; congruence.
Qed.

Lemma py_max0_max x : py_max0 x == Qmax 0 x.
Proof.
  unfold py_max0, Qlt_bool; destruct (Qle_bool x 0) eqn:E; simpl.
  - apply Qle_bool_iff in E; symmetry; apply Q.max_l; auto.
  - symmetry; apply Q.max_r.
    apply Qlt_le_weak, Qnot_le_lt; intros H; apply Qle_bool_iff in H; congruence.
Qed.

(** Under a non-negative raw score the floor does nothing. *)
Lemma py_max0_id x : 0 <= x -> py_max0 x == x.
Proof. intros H; rewrite py_max0_max; apply Q.max_r; auto. Qed.

(** A successful submission found the attempt and its exam and wrote the
    evaluation. *)
Lemma submit_exam_ok st aid uid answers now st' r :
  submit_exam st aid uid answers now = inr (st', r) ->
  exists attempt exam,
    find_attempt st aid = Some attempt /\ a_user_id attempt = uid /\
    a_status attempt = IN_PROGRESS /\ find_exam st (a_exam_id attempt) = Some exam /\
    (st', r) = submit_eval st aid uid attempt exam answers now.
Proof.
  unfold submit_exam.
  destruct (find_attempt st aid) as [att|] eqn:Ha; [|discriminate].
  destruct (N.eqb (a_user_id att) uid) eqn:Hu; simpl; [|discriminate].
  destruct (AttemptStatus_eqb (a_status att) IN_PROGRESS) eqn:Hs; simpl; [|discriminate].
  destruct (find_exam st (a_exam_id att)) as [ex|] eqn:He; [|discriminate].
  intros H; exists att, ex; split; [auto|]; split; [apply N.eqb_eq; auto|].
  split; [destruct (a_status att); simpl in Hs; congruence|].
  split; [auto|congruence].
Qed.

(** The attempt record after a successful submission. *)
Lemma submit_eval_attempt st aid uid attempt exam answers now :
  find_attempt st aid = Some attempt ->
  find_attempt (fst (submit_eval st aid uid attempt exam answers now)) aid =
  Some (with_evaluation attempt answers (evaluation_of st attempt exam answers now)).
Proof.
  intros H; unfold find_attempt in *; simpl.
  rewrite find_first_update_same by reflexivity; rewrite H; reflexivity.
Qed.

Lemma py_int_compat x y : x == y -> py_int x = py_int y.
Proof.
  unfold Qeq, py_int; intros H.
  rewrite <- (Z.quot_mul_cancel_r (Qnum x) (Zpos (Qden x)) (Zpos (Qden y))) by lia.
  rewrite H, (Z.mul_comm (Zpos (Qden x))).
  apply Z.quot_mul_cancel_r; lia.
Qed.

Lemma raw_score_evaluate st exam answers :
  es_score (evaluate (e_negative_marking exam) (questions_in st (e_question_ids exam)) answers)
  == raw_score st exam answers.
Proof. apply evaluate_score. Qed.

Lemma xp_of_inc us uid n bal :
  xp_of us uid = Some bal -> xp_of (inc_xp uid n us) uid = Some (bal + n)%Z.
Proof.
  unfold xp_of, inc_xp; intros H.
  rewrite find_first_update_same by reflexivity.
  destruct (find_first _ us) as [[u b]|]; simpl in *; congruence.
Qed.

(** ** C9: the stored score *)

(** C9: the score persisted by a successful [submit_exam] is
    [max(0, raw_score)], where [raw_score] sums [+marks] for correct and
    [-negative_marks] for incorrect answers (under negative marking); it is
    never negative. *)
Theorem submit_stored_score st aid uid answers now st' r :
  submit_exam st aid uid answers now = inr (st', r) ->
  exists attempt exam ev,
    find_attempt st aid = Some attempt /\ find_exam st (a_exam_id attempt) = Some exam /\
    find_attempt st' aid = Some (with_evaluation attempt answers ev) /\
    ev_score ev == Qmax 0 (raw_score st exam answers) /\ 0 <= ev_score ev.
Proof.
  intros H; destruct (submit_exam_ok _ _ _ _ _ _ _ H) as (att & ex & Ha & _ & _ & He & E).
  exists att, ex, (evaluation_of st att ex answers now).
  split; [exact Ha|]; split; [exact He|].
  split; [replace st' with (fst (submit_eval st aid uid att ex answers now)) by (rewrite <- E; reflexivity);
          apply submit_eval_attempt; exact Ha|].
  simpl; split; [|apply py_max0_nonneg].
  rewrite py_max0_max, raw_score_evaluate; reflexivity.
Qed.

(** C9, on the spec's example: q1 (5 marks) right, q2 (3 marks, penalty
    10) wrong: raw score -5, stored score 0. *)
Lemma submit_stored_score_witness :
  exists st' r,
    submit_exam (fx_db (fx_exam 8 0 [1%N; 2%N] PUBLISHED)) 1 7
      [fx_answer 1 "a"; fx_answer 2 "x"] 10 = inr (st', r) /\
    exists attempt exam ev,
      find_attempt (fx_db (fx_exam 8 0 [1%N; 2%N] PUBLISHED)) 1 = Some attempt /\
      find_exam (fx_db (fx_exam 8 0 [1%N; 2%N] PUBLISHED)) (a_exam_id attempt) = Some exam /\
      find_attempt st' 1 = Some (with_evaluation attempt [fx_answer 1 "a"; fx_answer 2 "x"] ev) /\
      ev_score ev == Qmax 0 (raw_score (fx_db (fx_exam 8 0 [1%N; 2%N] PUBLISHED)) exam
                                [fx_answer 1 "a"; fx_answer 2 "x"]) /\ 0 <= ev_score ev.
Proof.
  destruct (submit_exam (fx_db (fx_exam 8 0 [1%N; 2%N] PUBLISHED)) 1 7
              [fx_answer 1 "a"; fx_answer 2 "x"] 10) as [e|[st' r]] eqn:E;
    [vm_compute in E; discriminate|].
  exists st', r; split; [reflexivity|].
  exact (submit_stored_score _ _ _ _ _ _ _ E).
Defined.

(** The spec's example: raw score 5 - 10 = -5 is stored as 0. *)
Example submit_score_floor_example :
  match submit_exam (fx_db (fx_exam 8 0 [1%N; 2%N] PUBLISHED)) 1 7
          [fx_answer 1 "a"; fx_answer 2 "x"] 10 with
  | inr (st', r) =>
      option_map a_evaluation (find_attempt st' 1) = Some (Some (evaluation_of
        (fx_db (fx_exam 8 0 [1%N; 2%N] PUBLISHED))
        (mkAttempt 1%N 1%N 1 7%N IN_PROGRESS [] 0 None None)
        (fx_exam 8 0 [1%N; 2%N] PUBLISHED) [fx_answer 1 "a"; fx_answer 2 "x"] 10))
      /\ ev_score (evaluation_of (fx_db (fx_exam 8 0 [1%N; 2%N] PUBLISHED))
           (mkAttempt 1%N 1%N 1 7%N IN_PROGRESS [] 0 None None)
           (fx_exam 8 0 [1%N; 2%N] PUBLISHED) [fx_answer 1 "a"; fx_answer 2 "x"] 10) = 0
      /\ raw_score (fx_db (fx_exam 8 0 [1%N; 2%N] PUBLISHED)) (fx_exam 8 0 [1%N; 2%N] PUBLISHED)
           [fx_answer 1 "a"; fx_answer 2 "x"] == -5
  | inl _ => False
  end.
Proof. vm_compute; repeat split; reflexivity. Qed.

(** ** C1: percentage and pass flag *)

(** C1, at a failing input: the percentage and the pass flag are computed
    from the raw score, not from the floored final score. Exam 1 (total
    marks 8, passing marks 0, negative marking on) with question 2 only,
    answered wrong: the raw score is -10 and the final score 0. The spec
    gives percentage (0 / 8) * 100 = 0 and passed (0 >= 0); the code stores
    and returns percentage -125 and passed false. *)
Lemma submit_percentage_from_raw_score :
  match submit_exam (fx_db (fx_exam 8 0 [2%N] PUBLISHED)) 1 7 [fx_answer 2 "x"] 10 with
  | inr (st', r) =>
      raw_score (fx_db (fx_exam 8 0 [2%N] PUBLISHED)) (fx_exam 8 0 [2%N] PUBLISHED)
        [fx_answer 2 "x"] == -10
      /\ sp_score r == 0
      /\ match option_map a_evaluation (find_attempt st' 1) with
         | Some (Some ev) => ev_percentage ev == -125 /\ ev_passed ev = false
         | _ => False
         end
      /\ sp_percentage r == -125 /\ sp_passed r = false
      /\ spec_percentage (sp_score r) 8 == 0
      /\ inject_Z 0 <= sp_score r
  | inl _ => False
  end.
Proof. vm_compute; repeat split; discriminate. Qed.

(** ** C3: the XP award *)

Lemma py_int_nonneg x : 0 <= x -> (0 <= py_int x)%Z.
Proof.
  unfold Qle, py_int; simpl; intros H.
  apply Z.quot_pos; lia.
Qed.

(** C3 (claim as stated), refuted: XP is an integer, [int(score * 10)]
    truncates. Question 3 (1 mark) right and question 4 (penalty 1/4)
    wrong: final score 3/4, passed; the claim asks for 7.5 + 50 XP, the
    user receives 57. *)
Lemma submit_xp_truncated_counterexample :
  match submit_exam (fx_db (fx_exam 2 0 [3%N; 4%N] PUBLISHED)) 1 7
          [fx_answer 3 "c"; fx_answer 4 "x"] 10 with
  | inr (st', r) =>
      xp_of (users_xp st') 7 = Some 57%Z /\ sp_score r == 3 # 4 /\ sp_passed r = true /\
      ~ (inject_Z (57 - 0) == sp_score r * 10 + 50)
  | inl _ => False
  end.
Proof.
  vm_compute; split; [reflexivity|]; split; [reflexivity|]; split; [reflexivity|].
  intros H; discriminate H.
Qed.

(** C3 (amended): a successful [submit_exam] adds [xp_earned] to the
    user's balance; when the raw score is non-negative (so it equals the
    floored final score), [xp_earned] is [final_score * 10] truncated to
    an integer, plus 50 if passed, and is never negative. *)
Theorem submit_xp_award st aid uid answers now st' r :
  submit_exam st aid uid answers now = inr (st', r) ->
  exists attempt exam,
    find_attempt st aid = Some attempt /\ find_exam st (a_exam_id attempt) = Some exam /\
    (forall bal, xp_of (users_xp st) uid = Some bal ->
                 xp_of (users_xp st') uid = Some (bal + sp_xp_earned r)%Z) /\
    (0 <= raw_score st exam answers ->
       sp_xp_earned r = (py_int (py_max0 (raw_score st exam answers) * 10)
                         + (if sp_passed r then 50 else 0))%Z
       /\ (0 <= sp_xp_earned r)%Z).
Proof.
  intros H; destruct (submit_exam_ok _ _ _ _ _ _ _ H) as (att & ex & Ha & _ & _ & He & E).
  exists att, ex; split; [exact Ha|]; split; [exact He|].
  replace st' with (fst (submit_eval st aid uid att ex answers now)) by (rewrite <- E; reflexivity).
  replace r with (snd (submit_eval st aid uid att ex answers now)) by (rewrite <- E; reflexivity).
  split; [intros bal Hb; apply xp_of_inc; exact Hb|].
  intros Hnn; simpl; unfold xp_earned_of.
  assert (Hi : py_int (es_score (evaluate (e_negative_marking ex)
                                   (questions_in st (e_question_ids ex)) answers) * 10)
               = py_int (py_max0 (raw_score st ex answers) * 10)).
  { apply py_int_compat; rewrite (py_max0_id _ Hnn), raw_score_evaluate; reflexivity. }
  rewrite Hi; split; [reflexivity|].
  assert (0 <= py_int (py_max0 (raw_score st ex answers) * 10))%Z.
  { apply py_int_nonneg, Qmult_le_0_compat; [apply py_max0_nonneg|discriminate]. }
  match goal with |- context [if ?b then _ else _] => destruct b end; lia.
Qed.

(** C3 witness: the spec's end-to-end scenario shape, score 3/4. *)
Lemma submit_xp_award_witness :
  exists st' r,
    submit_exam (fx_db (fx_exam 2 0 [3%N; 4%N] PUBLISHED)) 1 7
      [fx_answer 3 "c"; fx_answer 4 "x"] 10 = inr (st', r) /\
    exists attempt exam,
      find_attempt (fx_db (fx_exam 2 0 [3%N; 4%N] PUBLISHED)) 1 = Some attempt /\
      find_exam (fx_db (fx_exam 2 0 [3%N; 4%N] PUBLISHED)) (a_exam_id attempt) = Some exam /\
      (forall bal, xp_of (users_xp (fx_db (fx_exam 2 0 [3%N; 4%N] PUBLISHED))) 7 = Some bal ->
                   xp_of (users_xp st') 7 = Some (bal + sp_xp_earned r)%Z) /\
      (0 <= raw_score (fx_db (fx_exam 2 0 [3%N; 4%N] PUBLISHED)) exam
              [fx_answer 3 "c"; fx_answer 4 "x"] ->
         sp_xp_earned r =
           (py_int (py_max0 (raw_score (fx_db (fx_exam 2 0 [3%N; 4%N] PUBLISHED)) exam
                               [fx_answer 3 "c"; fx_answer 4 "x"]) * 10)
            + (if sp_passed r then 50 else 0))%Z
         /\ (0 <= sp_xp_earned r)%Z).
Proof.
  destruct (submit_exam (fx_db (fx_exam 2 0 [3%N; 4%N] PUBLISHED)) 1 7
              [fx_answer 3 "c"; fx_answer 4 "x"] 10) as [e|[st' r]] eqn:E;
    [vm_compute in E; discriminate|].
  exists st', r; split; [reflexivity|].
  exact (submit_xp_award _ _ _ _ _ _ _ E).
Defined.

(** ** C4: unanswered accounting *)

(** C4, at a failing input: the exam has the single question 1 and the
    submission answers questions 7, 8 and 9, none of them in the exam.
    [answered_ids.add] runs before the membership test, so the foreign ids
    are counted: [unanswered_count = 1 - 3 = -2] is persisted and returned,
    while one exam question was left unanswered. *)
Lemma submit_unanswered_foreign_ids :
  match submit_exam (fx_db (fx_exam 5 0 [1%N] PUBLISHED)) 1 7
          [fx_answer 7 "a"; fx_answer 8 "a"; fx_answer 9 "a"] 10 with
  | inr (st', r) =>
      option_map (option_map ev_unanswered_count) (option_map a_evaluation (find_attempt st' 1))
        = Some (Some (-2)%Z)
      /\ sp_unanswered_count r = (-2)%Z
      /\ spec_unanswered [1%N] [fx_answer 7 "a"; fx_answer 8 "a"; fx_answer 9 "a"] = 1%Z
  | inl _ => False
  end.
Proof. vm_compute; repeat split. Qed.

(** ** C5: remaining time on resume *)

(** C5, at a failing input: attempt 1 of user 7 started at time 0 on a
    60-minute exam is resumed one day and ten seconds later.
    [timedelta.seconds] drops the whole day, so 3590 seconds are reported
    remaining, where [max(0, 3600 - 86410) = 0] is due. *)
Lemma start_resume_time_remaining_after_a_day :
  match start_exam (fx_db (fx_exam 5 0 [1%N] PUBLISHED)) 1 7 (86410 * 1000000) with
  | inr (st', r) =>
      sr_attempt_id r = 1%N /\ sr_time_remaining_seconds r = 3590%Z
      /\ spec_time_remaining 60 0 (86410 * 1000000) = 0%Z
  | inl _ => False
  end.
Proof. vm_compute; repeat split. Qed.

(** Within a day the seconds component is the whole elapsed time. *)
Lemma td_seconds_within_a_day d : (0 <= d < 86400 * 1000000)%Z -> td_seconds d = (d / 1000000)%Z.
Proof.
  intros H; unfold td_seconds; apply Z.mod_small; split;
    [apply Z.div_pos; lia | apply Z.div_lt_upper_bound; lia].
Qed.

(** ** Fresh ObjectIds *)

Lemma fold_max_ge (ids : list N) x : In x ids -> (x <= fold_right N.max 0 ids)%N.
Proof.
  induction ids as [|y ids IH]; simpl; [tauto|].
  intros [<-|H]; [lia|specialize (IH H); lia].
Qed.

Lemma new_oid_fresh (ids : list N) : ~ In (new_oid ids) ids.
Proof. unfold new_oid; intros H; apply fold_max_ge in H; lia. Qed.

Lemma find_exam_new_oid (l : list Exam) :
  find_first (fun e => N.eqb (e_id e) (new_oid (map e_id l))) l = None.
Proof.
  destruct (find_first _ l) as [x|] eqn:E; auto.
  apply find_first_some in E as [Hx Hin]; apply N.eqb_eq in Hx.
  exfalso; apply (new_oid_fresh (map e_id l)); rewrite <- Hx; apply in_map; auto.
Qed.

Lemma find_first_new_exam (l : list Exam) (e : Exam) :
  e_id e = new_oid (map e_id l) ->
  find_first (fun x => N.eqb (e_id x) (e_id e)) (l ++ [e]) = Some e.
Proof.
  intros Hid; rewrite Hid, find_first_app_r by apply find_exam_new_oid.
  simpl; rewrite <- Hid, N.eqb_refl; reflexivity.
Qed.

(** ** C2: total_marks *)

Lemma questions_in_nil st : questions_in st [] = [].
Proof. unfold questions_in; induction (questions st); simpl; auto. Qed.

(** C2 (claim as stated), refuted: [create_exam] with an empty question
    list keeps the supplied [total_marks] (here 100, the [ExamCreate]
    default) through [total_marks or exam_data.total_marks], while the
    referenced questions' marks sum to 0. *)
Lemma create_exam_empty_total_counterexample :
  let st := mkDB fx_questions [] [] [] in
  let '(st', e) := create_exam st (mkExamCreate "Exam" 60 100 40 false true []) in
  find_exam st' (e_id e) = Some e /\ e_total_marks e = 100%Z
  /\ referenced_marks st (e_question_ids e) = 0%Z.
Proof. vm_compute; repeat split. Qed.

(** C2 (amended): [create_exam] stores [total_marks] = the sum of the marks
    of the stored questions its [question_ids] refers to, unless that sum
    is 0 (e.g. no questions), in which case the supplied [total_marks] is
    kept; an in-place [update_exam] (exam in DRAFT) whose patch sets
    [question_ids] stores [total_marks] = the sum of the marks of the
    stored questions the new [question_ids] refers to. *)
Theorem exam_total_marks_recomputed (st : DB) :
  (forall data st' e, create_exam st data = (st', e) ->
     find_exam st' (e_id e) = Some e /\ e_question_ids e = c_question_ids data /\
     e_total_marks e =
       (if referenced_marks st (c_question_ids data) =? 0
        then c_total_marks data else referenced_marks st (c_question_ids data))%Z) /\
  (forall exam_id u ids exam st' e,
     find_exam st exam_id = Some exam -> e_status exam = DRAFT -> u_question_ids u = Some ids ->
     update_exam st exam_id u = inr (st', e) ->
     find_exam st' exam_id = Some e /\ e_question_ids e = ids /\
     e_total_marks e = referenced_marks st ids).
Proof.
  split.
  - intros data st' e H; unfold create_exam in H; injection H as <- <-.
    split; [apply find_first_new_exam; reflexivity|]; split; [reflexivity|]; simpl.
    unfold referenced_marks; destruct (c_question_ids data); [|reflexivity].
    rewrite questions_in_nil; reflexivity.
  - intros exam_id u ids exam st' e Hf Hs Hu H; unfold update_exam in H.
    rewrite Hf, Hs, Hu in H; simpl in H.
    unfold find_exam in H |- *; simpl in H.
    rewrite find_first_update_same in H
      by reflexivity.
    unfold find_exam in Hf; rewrite Hf in H; simpl in H; injection H as <- <-; simpl.
    rewrite find_first_update_same by reflexivity.
    rewrite Hf; simpl; rewrite Hu; auto.
Qed.

(** C2 witness: the in-place path on a DRAFT exam given questions 1 and 2
    (5 + 3 marks), and the creation of an exam on questions 1 and 3. *)
Lemma exam_total_marks_recomputed_witness :
  exists st' e,
    update_exam (fx_db (fx_exam 8 0 [3%N] DRAFT)) 1
      (mkExamUpdate None None None None None None (Some [1%N; 2%N]) None) = inr (st', e) /\
    e_total_marks e = 8%Z /\
    find_exam st' 1 = Some e /\ e_question_ids e = [1%N; 2%N] /\
    e_total_marks e = referenced_marks (fx_db (fx_exam 8 0 [3%N] DRAFT)) [1%N; 2%N].
Proof.
  destruct (update_exam (fx_db (fx_exam 8 0 [3%N] DRAFT)) 1
              (mkExamUpdate None None None None None None (Some [1%N; 2%N]) None))
    as [err|[st' e]] eqn:E; [vm_compute in E; discriminate|].
  exists st', e; split; [reflexivity|]; split; [vm_compute in E; injection E as _ <-; reflexivity|].
  exact (proj2 (exam_total_marks_recomputed (fx_db (fx_exam 8 0 [3%N] DRAFT))) 1%N
            (mkExamUpdate None None None None None None (Some [1%N; 2%N]) None) [1%N; 2%N]
            (fx_exam 8 0 [3%N] DRAFT) st' e eq_refl eq_refl eq_refl E).
Defined.

(** On the version fork the clone keeps the original's [total_marks]
    (8 = 5 + 3) although its questions are now 3 and 4 (1 + 1 marks):
    unlike the in-place path, the fork does not recompute it. *)
Example update_exam_fork_keeps_total_marks :
  match update_exam (fx_db (fx_exam 8 0 [1%N; 2%N] PUBLISHED)) 1
          (mkExamUpdate None None None None None None (Some [3%N; 4%N]) None) with
  | inr (st', e) =>
      e_total_marks e = 8%Z
      /\ referenced_marks (fx_db (fx_exam 8 0 [1%N; 2%N] PUBLISHED)) [3%N; 4%N] = 2%Z
  | inl _ => False
  end.
Proof. vm_compute; split; reflexivity. Qed.

(** ** C6: the version fork *)

(** C6: [update_exam] on an exam not in DRAFT with a patch that sets
    [question_ids] appends a clone with version + 1, status DRAFT, the new
    question list and an id no exam had; the original record is still
    found unchanged under its id, no other exam changes, and the attempts
    collection is untouched. *)
Theorem update_exam_fork st exam_id u ids exam st' e :
  find_exam st exam_id = Some exam -> e_status exam <> DRAFT -> u_question_ids u = Some ids ->
  update_exam st exam_id u = inr (st', e) ->
  e_version e = (e_version exam + 1)%Z /\ e_status e = DRAFT /\ e_question_ids e = ids /\
  ~ In (e_id e) (map e_id (exams st)) /\ e_id e <> e_id exam /\
  exams st' = exams st ++ [e] /\
  find_exam st' exam_id = Some exam /\ find_exam st' (e_id e) = Some e /\
  exam_attempts st' = exam_attempts st.
Proof.
  intros Hf Hs Hu H; unfold update_exam in H; rewrite Hf, Hu in H.
  replace (ExamStatus_eqb (e_status exam) DRAFT) with false in H
    by (destruct (e_status exam); simpl; congruence).
  simpl in H; injection H as <- <-; simpl.
  assert (Hfresh := new_oid_fresh (map e_id (exams st))).
  assert (Hin : In exam (exams st)) by (apply find_first_some in Hf; tauto).
  assert (Hid : e_id exam = exam_id) by (apply find_first_some in Hf as [Hx _]; apply N.eqb_eq; auto).
  split; [reflexivity|]; split; [reflexivity|]; split; [unfold apply_update; simpl; rewrite Hu; reflexivity|].
  split; [exact Hfresh|]; split.
  { intros Heq; apply Hfresh; rewrite Heq; apply in_map; auto. }
  split; [reflexivity|]; split.
  { unfold find_exam; simpl; apply find_first_app_l; exact Hf. }
  split; [|reflexivity].
  unfold find_exam; simpl; rewrite find_first_app_r by apply find_exam_new_oid.
  simpl; rewrite N.eqb_refl; reflexivity.
Qed.

(** C6 witness: the spec's example, a PUBLISHED version-1 exam whose
    question list is replaced. *)
Lemma update_exam_fork_witness :
  exists st' e,
    update_exam (fx_db (fx_exam 8 0 [1%N; 2%N] PUBLISHED)) 1
      (mkExamUpdate None None None None None None (Some [3%N; 4%N]) None) = inr (st', e) /\
    e_version e = 2%Z /\ e_status e = DRAFT /\ e_question_ids e = [3%N; 4%N] /\
    ~ In (e_id e) (map e_id (exams (fx_db (fx_exam 8 0 [1%N; 2%N] PUBLISHED)))) /\
    e_id e <> e_id (fx_exam 8 0 [1%N; 2%N] PUBLISHED) /\
    exams st' = exams (fx_db (fx_exam 8 0 [1%N; 2%N] PUBLISHED)) ++ [e] /\
    find_exam st' 1 = Some (fx_exam 8 0 [1%N; 2%N] PUBLISHED) /\ find_exam st' (e_id e) = Some e /\
    exam_attempts st' = exam_attempts (fx_db (fx_exam 8 0 [1%N; 2%N] PUBLISHED)).
Proof.
  destruct (update_exam (fx_db (fx_exam 8 0 [1%N; 2%N] PUBLISHED)) 1
              (mkExamUpdate None None None None None None (Some [3%N; 4%N]) None))
    as [err|[st' e]] eqn:E; [vm_compute in E; discriminate|].
  exists st', e; split; [reflexivity|].
  exact (update_exam_fork (fx_db (fx_exam 8 0 [1%N; 2%N] PUBLISHED)) 1
           (mkExamUpdate None None None None None None (Some [3%N; 4%N]) None) [3%N; 4%N]
           (fx_exam 8 0 [1%N; 2%N] PUBLISHED) st' e eq_refl ltac:(discriminate) eq_refl E).
Defined.

(** ** C7: the answer check *)

Lemma set_eqb_spec a b : set_eqb a b = true <-> same_set a b.
Proof.
  unfold set_eqb, same_set; rewrite andb_true_iff, !forallb_forall; split.
  - intros [H1 H2] x; split; intros Hx.
    + apply H1, existsb_exists in Hx as [y [Hy Hxy]]; apply String.eqb_eq in Hxy; subst; auto.
    + apply H2, existsb_exists in Hx as [y [Hy Hxy]]; apply String.eqb_eq in Hxy; subst; auto.
  - intros H; split; intros x Hx; apply existsb_exists; exists x;
      (split; [apply H; auto|apply String.eqb_refl]).
Qed.

(** The spec's examples: multi-select set equality and the case- and
    whitespace-insensitive text match. *)
Example answer_check_examples :
  let multi := mkQuestion 2%N MCQ_MULTI "Question two" (VList ["a"%string; "c"%string]) None 2 0 in
  let blank := mkQuestion 5%N FILL_BLANK "Question five" (VStr "Speaking"%string) None 1 0 in
  is_correct multi (VList ["c"%string; "a"%string]) = true /\ is_correct multi (VList ["a"%string]) = false /\
  is_correct multi (VList ["a"%string; "c"%string; "d"%string]) = false /\
  is_correct multi (VList ["a"%string; "c"%string; "a"%string]) = true /\
  is_correct blank (VStr " speaking ") = true.
Proof. vm_compute; repeat split. Qed.

(** C7: for a multi-choice question an answer is judged correct iff the
    set of the submitted answer (a scalar as a singleton) equals the set of
    the canonical answer; for every other type iff [str] of both, lowercased
    and trimmed, are equal; the evaluation loop records this judgement for
    every answer whose question belongs to the exam. *)
Theorem answer_check q v :
  (q_type q = MCQ_MULTI ->
     (is_correct q v = true <-> same_set (to_set (q_correct_answer q)) (to_set v))) /\
  (q_type q <> MCQ_MULTI ->
     (is_correct q v = true <-> normalise (py_str v) = normalise (py_str (q_correct_answer q)))) /\
  (forall n qs es a, ans_answer a = v -> dict_get qs (ans_question_id a) = Some q ->
     exists d, es_detailed_results (eval_step n qs es a) = es_detailed_results es ++ [d] /\
               d_is_correct d = is_correct q v).
Proof.
  split; [|split].
  - intros Ht; unfold is_correct; rewrite Ht; simpl; apply set_eqb_spec.
  - intros Ht; unfold is_correct, normalise.
    replace (QuestionType_eqb (q_type q) MCQ_MULTI) with false
      by (destruct (q_type q); simpl; congruence).
    apply String.eqb_eq.
  - intros n qs es a Hv Hq; unfold eval_step; rewrite Hq; simpl.
    eexists; split; [reflexivity|]; simpl; rewrite Hv; reflexivity.
Qed.

(** C7 witness: canonical ["a"%string; "c"%string], submitted ["c"%string; "a"%string]. *)
Lemma answer_check_witness :
  let multi := mkQuestion 2%N MCQ_MULTI "Question two" (VList ["a"%string; "c"%string]) None 2 0 in
  (is_correct multi (VList ["c"%string; "a"%string]) = true <->
   same_set (to_set (q_correct_answer multi)) (to_set (VList ["c"%string; "a"%string]))) /\
  is_correct multi (VList ["c"%string; "a"%string]) = true.
Proof.
  intros multi; split.
  - exact (proj1 (answer_check multi (VList ["c"%string; "a"%string])) eq_refl).
  - reflexivity.
Defined.

(** ** C8: at most one IN_PROGRESS attempt per (user, exam) *)

Lemma update_exam_attempts st id u st' e :
  update_exam st id u = inr (st', e) -> exam_attempts st' = exam_attempts st.
Proof.
  unfold update_exam; destruct (find_exam st id) as [ex|]; [|discriminate].
  destruct (_ && _); [intros [= <- _]; reflexivity|].
  destruct (find_exam _ id); [intros [= <- _]; reflexivity|discriminate].
Qed.

Lemma publish_exam_attempts st id st' :
  publish_exam st id = inr st' -> exam_attempts st' = exam_attempts st.
Proof.
  unfold publish_exam; destruct (find_exam st id) as [ex|]; [|discriminate].
  destruct (e_question_ids ex); [discriminate|intros [= <-]; reflexivity].
Qed.

Lemma archive_exam_attempts st id st' :
  archive_exam st id = inr st' -> exam_attempts st' = exam_attempts st.
Proof.
  unfold archive_exam; destruct (find_exam st id); [intros [= <-]; reflexivity|discriminate].
Qed.

(** A successful start either resumes (nothing written) or appends one
    attempt for the pair, which had no IN_PROGRESS attempt. *)
Lemma start_exam_cases st e u now st' r :
  start_exam st e u now = inr (st', r) ->
  st' = st \/
  (find_first (is_active_for e u) (exam_attempts st) = None /\
   exists a, exam_attempts st' = exam_attempts st ++ [a] /\
             is_active_for e u a = true /\ sr_attempt_id r = a_id a /\
             sr_saved_answers r = a_answers a /\
             (forall e' u', is_active_for e' u' a = true -> e' = e /\ u' = u)).
Proof.
  unfold start_exam; destruct (find_exam st e) as [ex|]; [|discriminate].
  destruct (negb (startable (e_status ex))); [discriminate|].
  destruct (find_first (is_active_for e u) (exam_attempts st)) eqn:Hf.
  - intros [= <- _]; auto.
  - intros [= <- <-]; right; split; [reflexivity|]; eexists; split; [reflexivity|].
    unfold is_active_for; simpl; rewrite !N.eqb_refl; split; [reflexivity|].
    split; [reflexivity|]; split; [reflexivity|].
    intros e' u' H; apply andb_true_iff in H as [H _]; apply andb_true_iff in H as [H1 H2].
    apply N.eqb_eq in H1, H2; auto.
Qed.

Lemma start_exam_resume st e u now st' r a :
  find_first (is_active_for e u) (exam_attempts st) = Some a ->
  start_exam st e u now = inr (st', r) ->
  st' = st /\ sr_attempt_id r = a_id a /\ sr_saved_answers r = a_answers a.
Proof.
  intros Ha; unfold start_exam; destruct (find_exam st e) as [ex|]; [|discriminate].
  destruct (negb (startable (e_status ex))); [discriminate|].
  rewrite Ha; intros [= <- <-]; auto.
Qed.

(** After a successful start the pair's first IN_PROGRESS attempt is the
    one returned. *)
Lemma start_exam_active st e u now st' r :
  start_exam st e u now = inr (st', r) ->
  exists a, find_first (is_active_for e u) (exam_attempts st') = Some a /\
            a_id a = sr_attempt_id r /\ a_answers a = sr_saved_answers r.
Proof.
  intros H.
  destruct (find_first (is_active_for e u) (exam_attempts st)) as [a|] eqn:Hf.
  - destruct (start_exam_resume _ _ _ _ _ _ _ Hf H) as (-> & H1 & H2); eauto.
  - revert H; unfold start_exam; destruct (find_exam st e) as [ex|]; [|discriminate].
    destruct (negb (startable (e_status ex))); [discriminate|].
    rewrite Hf; intros [= <- <-]; simpl.
    rewrite find_first_app_r by exact Hf; simpl.
    unfold is_active_for; simpl; rewrite !N.eqb_refl; simpl; eauto.
Qed.

Lemma filter_length_app_one {A} (p : A -> bool) l a :
  List.length (filter p (l ++ [a])) = (List.length (filter p l) + if p a then 1 else 0)%nat.
Proof. rewrite filter_app, length_app; simpl; destruct (p a); simpl; lia. Qed.

Lemma run_op_at_most_one st o :
  at_most_one_active (exam_attempts st) -> at_most_one_active (exam_attempts (run_op st o)).
Proof.
  intros Hinv; destruct o as [d|id u|id|id|e u now|aid u ans now|aid u ans now]; simpl.
  - exact Hinv.
  - destruct (update_exam st id u) as [|[st' x]] eqn:E; auto.
    rewrite (update_exam_attempts _ _ _ _ _ E); auto.
  - destruct (publish_exam st id) eqn:E; auto; rewrite (publish_exam_attempts _ _ _ E); auto.
  - destruct (archive_exam st id) eqn:E; auto; rewrite (archive_exam_attempts _ _ _ E); auto.
  - destruct (start_exam st e u now) as [|[st' r]] eqn:E; auto.
    destruct (start_exam_cases _ _ _ _ _ _ E) as [->|(Hnone & a & Ha & _ & _ & _ & Hpair)]; auto.
    intros e' u'; rewrite Ha, filter_length_app_one.
    destruct (is_active_for e' u' a) eqn:Hq.
    + destruct (Hpair _ _ Hq) as [-> ->]; rewrite (find_first_none _ _ Hnone); simpl; lia.
    + specialize (Hinv e' u'); lia.
  - unfold sync_answers; destruct (find_attempt st aid) as [att|]; auto.
    destruct (negb _); auto; destruct (negb _); simpl; auto.
    intros e' u'; eapply Nat.le_trans; [apply filter_update_le|apply Hinv].
    intros x; unfold is_active_for; simpl; auto.
  - unfold submit_exam; destruct (find_attempt st aid) as [att|]; auto.
    destruct (negb _); auto; destruct (negb _); auto.
    destruct (find_exam st (a_exam_id att)); simpl; auto.
    intros e' u'; eapply Nat.le_trans; [apply filter_update_le|apply Hinv].
    intros x; unfold is_active_for; simpl; rewrite andb_false_r; discriminate.
Qed.

Lemma run_ops_at_most_one st ops :
  at_most_one_active (exam_attempts st) -> at_most_one_active (exam_attempts (run_ops st ops)).
Proof.
  unfold run_ops; revert st; induction ops as [|o ops IH]; simpl; auto.
  intros st H; apply IH, run_op_at_most_one, H.
Qed.

(** C8: under sequential calls no (user, exam) pair ever has two
    IN_PROGRESS attempts (from the empty store, or from any store that
    satisfies it); a start while the pair has an IN_PROGRESS attempt
    writes nothing and returns that attempt's id and saved answers; two
    starts in a row return the same attempt id. *)
Theorem start_exam_single_active :
  (forall qs us ops, at_most_one_active (exam_attempts (run_ops (empty_db qs us) ops))) /\
  (forall st ops, at_most_one_active (exam_attempts st) ->
                  at_most_one_active (exam_attempts (run_ops st ops))) /\
  (forall st e u now st' r a,
     find_first (is_active_for e u) (exam_attempts st) = Some a ->
     start_exam st e u now = inr (st', r) ->
     st' = st /\ sr_attempt_id r = a_id a /\ sr_saved_answers r = a_answers a) /\
  (forall st e u now1 now2 st1 r1 st2 r2,
     start_exam st e u now1 = inr (st1, r1) -> start_exam st1 e u now2 = inr (st2, r2) ->
     st2 = st1 /\ sr_attempt_id r2 = sr_attempt_id r1).
Proof.
  split; [|split; [|split]].
  - intros qs us ops; apply run_ops_at_most_one; intros e u; simpl; lia.
  - exact run_ops_at_most_one.
  - exact start_exam_resume.
  - intros st e u now1 now2 st1 r1 st2 r2 H1 H2.
    destruct (start_exam_active _ _ _ _ _ _ H1) as (a & Ha & Hid & _).
    destruct (start_exam_resume _ _ _ _ _ _ _ Ha H2) as (-> & Hr & _); split; congruence.
Qed.

(** C8 witness: exam 1 created on question 1, published, then started
    twice by user 7; both calls return attempt 1 and one attempt exists. *)
Lemma start_exam_single_active_witness :
  let st := run_ops (empty_db fx_questions [(7%N, 0%Z)])
              [OCreateExam (mkExamCreate "Exam" 60 100 40 false true [1%N]); OPublishExam 1] in
  exists st1 r1 st2 r2,
    start_exam st 1 7 0 = inr (st1, r1) /\ start_exam st1 1 7 5 = inr (st2, r2) /\
    sr_attempt_id r1 = 1%N /\ List.length (exam_attempts st2) = 1%nat /\
    st2 = st1 /\ sr_attempt_id r2 = sr_attempt_id r1.
Proof.
  intros st.
  destruct (start_exam st 1 7 0) as [err|[st1 r1]] eqn:E1; [vm_compute in E1; discriminate|].
  destruct (start_exam st1 1 7 5) as [err|[st2 r2]] eqn:E2.
  { vm_compute in E1; injection E1 as <- _; vm_compute in E2; discriminate. }
  exists st1, r1, st2, r2; split; [reflexivity|]; split; [exact E2|].
  split; [vm_compute in E1; injection E1 as _ <-; reflexivity|].
  destruct (proj2 (proj2 (proj2 start_exam_single_active)) st 1%N 7%N 0%Z 5%Z st1 r1 st2 r2 E1 E2)
    as [-> Hid].
  split; [vm_compute in E1; injection E1 as <- _; reflexivity|].
  split; [reflexivity|exact Hid].
Defined.

(** ** C10: evaluated attempts are frozen *)

Lemma find_attempt_update_other (l : list Attempt) aid aid' f :
  aid' <> aid -> (forall x, a_id (f x) = a_id x) ->
  find_first (fun x => N.eqb (a_id x) aid) (update_first (fun x => N.eqb (a_id x) aid') f l)
  = find_first (fun x => N.eqb (a_id x) aid) l.
Proof.
  intros Hne Hf; apply find_first_update_other; intros x Hx; apply N.eqb_eq in Hx.
  rewrite Hf, Hx; split; apply N.eqb_neq; auto.
Qed.

Lemma find_attempt_same_status st aid att a :
  find_attempt st aid = Some att -> find_attempt st aid = Some a ->
  a_status a <> IN_PROGRESS -> AttemptStatus_eqb (a_status att) IN_PROGRESS = true -> False.
Proof.
  intros H1 H2 Hs Hb; rewrite H1 in H2; injection H2 as ->.
  destruct (a_status a); simpl in Hb; congruence.
Qed.

Lemma run_op_frozen st o aid a :
  find_attempt st aid = Some a -> a_status a <> IN_PROGRESS ->
  find_attempt (run_op st o) aid = Some a.
Proof.
  intros Ha Hs; unfold find_attempt in *.
  destruct o as [d|id u|id|id|e u now|aid' u ans now|aid' u ans now]; simpl.
  - exact Ha.
  - destruct (update_exam st id u) as [|[st' x]] eqn:E; auto.
    rewrite (update_exam_attempts _ _ _ _ _ E); auto.
  - destruct (publish_exam st id) eqn:E; auto; rewrite (publish_exam_attempts _ _ _ E); auto.
  - destruct (archive_exam st id) eqn:E; auto; rewrite (archive_exam_attempts _ _ _ E); auto.
  - destruct (start_exam st e u now) as [|[st' r]] eqn:E; auto.
    destruct (start_exam_cases _ _ _ _ _ _ E) as [->|(_ & n & Hn & _)]; auto.
    rewrite Hn; apply find_first_app_l; exact Ha.
  - unfold sync_answers; destruct (find_attempt st aid') as [att|] eqn:Hatt; auto.
    destruct (negb _); auto; destruct (negb (AttemptStatus_eqb _ _)) eqn:Hb; simpl; auto.
    destruct (N.eq_dec aid' aid) as [->|Hne].
    + exfalso; apply (find_attempt_same_status st aid att a Hatt Ha Hs).
      destruct (AttemptStatus_eqb _ _); simpl in Hb; congruence.
    + rewrite find_attempt_update_other; auto.
  - unfold submit_exam; destruct (find_attempt st aid') as [att|] eqn:Hatt; auto.
    destruct (negb _); auto; destruct (negb (AttemptStatus_eqb _ _)) eqn:Hb; auto.
    destruct (find_exam st (a_exam_id att)); simpl; auto.
    destruct (N.eq_dec aid' aid) as [->|Hne].
    + exfalso; apply (find_attempt_same_status st aid att a Hatt Ha Hs).
      destruct (AttemptStatus_eqb _ _); simpl in Hb; congruence.
    + rewrite find_attempt_update_other; auto.
Qed.

(** C10: on an attempt whose status is not IN_PROGRESS, [sync_answers]
    and [submit_exam] called by its owner fail with AlreadySubmitted (the
    ownership check comes first: another user gets NotFound from
    [sync_answers] and Forbidden from [submit_exam]); a failed
    [submit_exam] (or [sync_answers]) writes nothing; and no sequence of
    requests changes the attempt record afterwards. *)
Theorem attempt_frozen_after_submit st aid a :
  find_attempt st aid = Some a -> a_status a <> IN_PROGRESS ->
  (forall answers now,
     sync_answers st aid (a_user_id a) answers now = inl AlreadySubmitted /\
     submit_exam st aid (a_user_id a) answers now = inl AlreadySubmitted) /\
  (forall uid answers now, uid <> a_user_id a ->
     sync_answers st aid uid answers now = inl NotFound /\
     submit_exam st aid uid answers now = inl Forbidden) /\
  (forall uid answers now,
     run_op st (OSyncAnswers aid uid answers now) = st /\
     run_op st (OSubmitExam aid uid answers now) = st) /\
  (forall ops, find_attempt (run_ops st ops) aid = Some a).
Proof.
  intros Ha Hs.
  assert (Hb : AttemptStatus_eqb (a_status a) IN_PROGRESS = false)
    by (destruct (a_status a); simpl; congruence).
  split; [|split; [|split]].
  - intros answers now; unfold sync_answers, submit_exam; rewrite Ha, N.eqb_refl, Hb; auto.
  - intros uid answers now Hne; unfold sync_answers, submit_exam; rewrite Ha.
    replace (N.eqb (a_user_id a) uid) with false by (symmetry; apply N.eqb_neq; auto); auto.
  - intros uid answers now.
    assert (Hsy : exists err, sync_answers st aid uid answers now = inl err).
    { unfold sync_answers; rewrite Ha; destruct (negb _); [eauto|rewrite Hb; simpl; eauto]. }
    assert (Hsu : exists err, submit_exam st aid uid answers now = inl err).
    { unfold submit_exam; rewrite Ha; destruct (negb _); [eauto|rewrite Hb; simpl; eauto]. }
    destruct Hsy as [e1 E1]; destruct Hsu as [e2 E2].
    simpl; rewrite E1, E2; auto.
  - intros ops; unfold run_ops; revert st Ha; induction ops as [|o ops IH]; simpl; auto.
    intros st Ha; apply IH, run_op_frozen; auto.
Qed.

(** C10 witness: user 7's attempt 1 after its submission, called by its
    owner and by user 8. *)
Lemma attempt_frozen_after_submit_witness :
  exists st' r,
    submit_exam (fx_db (fx_exam 5 0 [1%N] PUBLISHED)) 1 7 [fx_answer 1 "a"] 10 = inr (st', r) /\
    exists a, find_attempt st' 1 = Some a /\ a_status a = EVALUATED /\
      sync_answers st' 1 7 [] 20 = inl AlreadySubmitted /\
      submit_exam st' 1 7 [] 20 = inl AlreadySubmitted /\
      sync_answers st' 1 8 [] 20 = inl NotFound /\
      submit_exam st' 1 8 [] 20 = inl Forbidden /\
      find_attempt (run_ops st' [OStartExam 1 7 30; OSubmitExam 1 7 [fx_answer 1 "b"] 40]) 1
        = Some a.
Proof.
  destruct (submit_exam (fx_db (fx_exam 5 0 [1%N] PUBLISHED)) 1 7 [fx_answer 1 "a"] 10)
    as [err|[st' r]] eqn:E; [vm_compute in E; discriminate|].
  exists st', r; split; [reflexivity|].
  destruct (find_attempt st' 1) as [a|] eqn:Ha; [|vm_compute in E; injection E as <- _;
                                                 vm_compute in Ha; discriminate].
  assert (Hs : a_status a = EVALUATED)
    by (vm_compute in E; injection E as <- _; vm_compute in Ha; injection Ha as <-; reflexivity).
  assert (Hn : a_status a <> IN_PROGRESS) by (rewrite Hs; discriminate).
  destruct (attempt_frozen_after_submit st' 1 a Ha Hn) as [Hown [Hother [_ Hops]]].
  assert (Hu : a_user_id a = 7%N)
    by (vm_compute in E; injection E as <- _; vm_compute in Ha; injection Ha as <-; reflexivity).
  exists a; split; [reflexivity|]; split; [exact Hs|].
  destruct (Hother 8%N [] 20%Z) as [H3 H4]; [rewrite Hu; discriminate|].
  rewrite <- Hu; destruct (Hown [] 20%Z) as [H1 H2]; split; [exact H1|]; split; [exact H2|].
  split; [exact H3|]; split; [exact H4|].
  apply Hops.
Defined.

(* ------------------------------------------------------------------ *)
(** ** Further lemmas on lists *)

Section MoreLists.
Context {A : Type}.
Implicit Types (p q : A -> bool) (f g : A -> A) (l : list A).

Lemma update_first_length p f l : List.length (update_first p f l) = List.length l.
Proof. induction l as [|y l IH]; simpl; auto; destruct (p y); simpl; auto. Qed.

Lemma map_update_first {B} (h : A -> B) p f l :
  (forall x, h (f x) = h x) -> map h (update_first p f l) = map h l.
Proof.
  intros Hf; induction l as [|y l IH]; simpl; auto.
  destruct (p y); simpl; rewrite ?Hf, ?IH; auto.
Qed.

Lemma update_first_ext p f g l :
  (forall x, f x = g x) -> update_first p f l = update_first p g l.
Proof.
  intros H; induction l as [|y l IH]; simpl; auto; destruct (p y); rewrite ?H, ?IH; auto.
Qed.

Lemma update_first_twice p f g l :
  (forall x, p (f x) = p x) ->
  update_first p g (update_first p f l) = update_first p (fun x => g (f x)) l.
Proof.
  intros Hf; induction l as [|y l IH]; simpl; auto.
  destruct (p y) eqn:Hy; simpl; [rewrite Hf, Hy; auto|rewrite Hy, IH; auto].
Qed.

Lemma filter_update_first_succ p q f l x :
  find_first p l = Some x -> q x = false -> q (f x) = true ->
  List.length (filter q (update_first p f l)) = S (List.length (filter q l)).
Proof.
  induction l as [|y l IH]; simpl; [discriminate|].
  destruct (p y) eqn:Hy.
  - intros [= <-] H1 H2; simpl; rewrite H1, H2; reflexivity.
  - intros H H1 H2; simpl; destruct (q y); simpl; rewrite IH; auto.
Qed.

Lemma find_first_nodup {B} (h : A -> B) (eqb : B -> B -> bool) l x :
  (forall a b, eqb a b = true <-> a = b) ->
  NoDup (map h l) -> In x l -> find_first (fun y => eqb (h y) (h x)) l = Some x.
Proof.
  intros Heq; induction l as [|y l IH]; simpl; [tauto|].
  intros Hnd Hin; inversion Hnd as [|? ? Hy Hnd']; subst.
  destruct Hin as [->|Hin].
  - rewrite (proj2 (Heq _ _) eq_refl); reflexivity.
  - destruct (eqb (h y) (h x)) eqn:E.
    + apply Heq in E; exfalso; apply Hy; rewrite E; apply in_map; auto.
    + auto.
Qed.

Lemma NoDup_app_one (l : list A) x : NoDup l -> ~ In x l -> NoDup (l ++ [x]).
Proof.
  intros H Hx; apply NoDup_app; auto; [constructor; auto; constructor|].
  intros y Hy [<-|[]]; auto.
Qed.

Lemma firstn_pages l m m' :
  firstn m l ++ firstn m' (skipn m l) = firstn (m + m') l.
Proof.
  revert l; induction m as [|m IH]; intros l; simpl; auto.
  destruct l as [|y l]; simpl; [destruct m'; auto|rewrite IH; auto].
Qed.

Lemma firstn_length_le_n l n : (List.length (firstn n l) <= n)%nat.
Proof. rewrite length_firstn; lia. Qed.

(** The insertion sort is a permutation and sorts. *)
Lemma insert_by_perm (b : A -> A -> bool) x l : Permutation (insert_by b x l) (x :: l).
Proof.
  induction l as [|y l IH]; simpl; auto.
  destruct (b x y); auto.
  eapply perm_trans; [apply perm_skip, IH|apply perm_swap].
Qed.

Lemma sort_by_perm (b : A -> A -> bool) l : Permutation (sort_by b l) l.
Proof.
  unfold sort_by; rewrite <- (app_nil_l l) at 2.
  generalize (@nil A) as acc; induction l as [|x l IH]; intros acc; simpl.
  - rewrite app_nil_r; auto.
  - eapply perm_trans; [apply IH|].
    eapply perm_trans; [apply Permutation_app_tail, insert_by_perm|].
    simpl; apply Permutation_middle.
Qed.

Section Sorting.
Variable (R : A -> A -> Prop) (b : A -> A -> bool).
Hypothesis b_true : forall x y, b x y = true -> R x y.
Hypothesis b_false : forall x y, b x y = false -> R y x.

Lemma insert_by_sorted x l : Sorted R l -> Sorted R (insert_by b x l).
Proof.
  induction l as [|y l IH]; simpl; intros H; [auto|].
  destruct (b x y) eqn:E; [constructor; auto|].
  inversion H as [|? ? Hl Hhd]; subst.
  constructor; [auto|].
  destruct l as [|z l]; simpl; [constructor; auto|].
  destruct (b x z); constructor; [auto|inversion Hhd; auto].
Qed.

Lemma sort_by_sorted l : Sorted R (sort_by b l).
Proof.
  unfold sort_by; assert (H : Sorted R (@nil A)) by constructor; revert H.
  generalize (@nil A) as acc; induction l as [|x l IH]; intros acc H; simpl; auto.
  apply IH, insert_by_sorted, H.
Qed.

End Sorting.

End MoreLists.

(** An answer whose question the exam's query returned. *)
Lemma dict_get_some qs qid :
  match dict_get qs qid with Some _ => true | None => false end
  = existsb (fun q => N.eqb (q_id q) qid) qs.
Proof.
  unfold dict_get; rewrite <- (rev_involutive qs) at 2; induction (rev qs) as [|q r IH]; simpl; auto.
  rewrite existsb_app; simpl; destruct (N.eqb (q_id q) qid); simpl; rewrite ?orb_true_r; auto.
  rewrite orb_false_r; auto.
Qed.

(* ------------------------------------------------------------------ *)
(** ** Exam lifecycle *)

Lemma find_exam_update st id f :
  (forall x, e_id (f x) = e_id x) ->
  find_first (fun x => N.eqb (e_id x) id) (update_first (fun x => N.eqb (e_id x) id) f (exams st))
  = option_map f (find_exam st id).
Proof. intros Hf; apply find_first_update_same; intros x; rewrite Hf; reflexivity. Qed.

Lemma find_exam_update_other st id id' f :
  id' <> id -> (forall x, e_id (f x) = e_id x) ->
  find_first (fun x => N.eqb (e_id x) id') (update_first (fun x => N.eqb (e_id x) id) f (exams st))
  = find_exam st id'.
Proof.
  intros Hne Hf; apply find_first_update_other; intros x Hx; apply N.eqb_eq in Hx.
  rewrite Hf, Hx; split; apply N.eqb_neq; auto.
Qed.

Lemma startable_iff s : startable s = true <-> s = PUBLISHED \/ s = ACTIVE.
Proof. destruct s; simpl; intuition discriminate. Qed.

(** Whatever the attempts, [start_exam] succeeds on a PUBLISHED or ACTIVE
    exam. *)
Lemma start_exam_startable st id ex uid now :
  find_exam st id = Some ex -> startable (e_status ex) = true ->
  exists st' r, start_exam st id uid now = inr (st', r).
Proof.
  intros He Hs; unfold start_exam; rewrite He, Hs; simpl.
  destruct (find_first _ _); eauto.
Qed.

Lemma start_exam_not_startable st id ex uid now :
  find_exam st id = Some ex -> startable (e_status ex) = false ->
  start_exam st id uid now = inl NotAvailable.
Proof. intros He Hs; unfold start_exam; rewrite He, Hs; reflexivity. Qed.

Lemma inr_pair {E A B} (x : A * B) : exists a, (inr x : E + (A * B)) = inr (a, snd x).
Proof. exists (fst x); destruct x; reflexivity. Qed.

Lemma submit_eval_resp_status st st' aid uid att exam answers now s :
  questions st' = questions st ->
  snd (submit_eval st' aid uid att (with_status exam s) answers now)
  = snd (submit_eval st aid uid att exam answers now).
Proof.
  intros Hq; unfold submit_eval, evaluation_of, xp_earned_of, questions_in; rewrite Hq; reflexivity.
Qed.

(** Deleting and archiving write the same documents. *)
Lemma retire_exam_shape st id st' :
  (delete_exam st id = inr st' \/ archive_exam st id = inr st') ->
  exists ex, find_exam st id = Some ex /\
    st' = mkDB (questions st)
            (update_first (fun x => N.eqb (e_id x) id) (fun x => with_status x ARCHIVED) (exams st))
            (exam_attempts st) (users_xp st).
Proof.
  unfold delete_exam, archive_exam; destruct (find_exam st id) as [ex|];
    intros [H|H]; try discriminate; injection H as <-; eauto.
Qed.

(** ** X1: [delete_exam] is a soft delete *)



(** ** X2: retiring an exam does not stop running attempts *)

(** X2: after [delete_exam] or [archive_exam] succeeds, an IN_PROGRESS
    attempt on that exam can still be submitted, and the submission
    returns the same result as it would have before. *)
Theorem retired_exam_still_submittable st id st' aid uid answers now st1 r :
  (delete_exam st id = inr st' \/ archive_exam st id = inr st') ->
  submit_exam st aid uid answers now = inr (st1, r) ->
  exists st2, submit_exam st' aid uid answers now = inr (st2, r).
Proof.
  intros Hd Hs; destruct (retire_exam_shape _ _ _ Hd) as (ex0 & Hex0 & ->).
  destruct (submit_exam_ok _ _ _ _ _ _ _ Hs) as (att & exam & Ha & Hu & Hst & He & Heq).
  unfold submit_exam at 1; unfold find_attempt at 1; simpl; fold (find_attempt st aid).
  rewrite Ha, Hu, N.eqb_refl, Hst; simpl.
  destruct (N.eq_dec (a_exam_id att) id) as [Hid|Hid].
  - unfold find_exam at 1; simpl; rewrite Hid, find_exam_update, Hex0 by reflexivity; simpl.
    rewrite Hid, Hex0 in He; injection He as ->.
    assert (Hr : snd (submit_eval (mkDB (questions st)
              (update_first (fun x => N.eqb (e_id x) id) (fun x => with_status x ARCHIVED) (exams st))
              (exam_attempts st) (users_xp st)) aid uid att (with_status exam ARCHIVED) answers now) = r)
      by (rewrite (submit_eval_resp_status st) by reflexivity; rewrite <- Heq; reflexivity).
    rewrite <- Hr; apply inr_pair.
  - unfold find_exam at 1; simpl; rewrite find_exam_update_other by auto.
    rewrite He.
    assert (Hr : snd (submit_eval (mkDB (questions st)
              (update_first (fun x => N.eqb (e_id x) id) (fun x => with_status x ARCHIVED) (exams st))
              (exam_attempts st) (users_xp st)) aid uid att exam answers now) = r)
      by (change r with (snd (st1, r)); rewrite Heq; reflexivity).
    rewrite <- Hr; apply inr_pair.
Qed.

(** X2 witness: attempt 1 of exam 1 is submitted after exam 1 is deleted. *)
Lemma retired_exam_still_submittable_witness :
  exists st' st1 r st2,
    delete_exam (fx_db (fx_exam 5 0 [1%N] PUBLISHED)) 1 = inr st' /\
    submit_exam (fx_db (fx_exam 5 0 [1%N] PUBLISHED)) 1 7 [fx_answer 1 "a"] 10 = inr (st1, r) /\
    submit_exam st' 1 7 [fx_answer 1 "a"] 10 = inr (st2, r).
Proof.
  destruct (delete_exam (fx_db (fx_exam 5 0 [1%N] PUBLISHED)) 1) as [e|st'] eqn:E1;
    [vm_compute in E1; discriminate|].
  destruct (submit_exam (fx_db (fx_exam 5 0 [1%N] PUBLISHED)) 1 7 [fx_answer 1 "a"] 10)
    as [e|[st1 r]] eqn:E2; [vm_compute in E2; discriminate|].
  destruct (retired_exam_still_submittable _ _ _ _ _ _ _ _ _ (or_introl E1) E2) as [st2 E3].
  exists st', st1, r, st2; auto.
Defined.

(** ** X3: publishing *)



(** ** X4: a status patch skips the publication check *)



Lemma create_exam_shape st data st1 e :
  create_exam st data = (st1, e) ->
  st1 = mkDB (questions st) (exams st ++ [e]) (exam_attempts st) (users_xp st) /\
  e_id e = new_oid (map e_id (exams st)) /\ e_status e = DRAFT /\ e_version e = 1%Z /\
  e_question_ids e = c_question_ids data /\ e_duration_minutes e = c_duration_minutes data.
Proof. unfold create_exam; intros H; injection H as <- <-; repeat split. Qed.

(** ** X5: a new exam, published and started *)

(** X5: when every stored attempt refers to a stored exam, an exam just
    created with a non-empty question list gets an id no exam had, status
    DRAFT and version 1, and is found under that id; publishing it
    succeeds; and the first [start_exam] on it appends a new IN_PROGRESS
    attempt bound to version 1, with the full duration left and no saved
    answers. *)
Theorem create_publish_start st data st1 e uid now :
  create_exam st data = (st1, e) -> c_question_ids data <> [] ->
  (forall a, In a (exam_attempts st) -> In (a_exam_id a) (map e_id (exams st))) ->
  e_status e = DRAFT /\ e_version e = 1%Z /\ ~ In (e_id e) (map e_id (exams st)) /\
  find_exam st1 (e_id e) = Some e /\
  exists st2, publish_exam st1 (e_id e) = inr st2 /\
  exists a, start_exam st2 (e_id e) uid now =
      inr (mkDB (questions st) (exams st2) (exam_attempts st ++ [a]) (users_xp st),
           mkStartResp (a_id a) now (c_duration_minutes data * 60)%Z []) /\
    a_exam_version a = 1%Z /\ a_status a = IN_PROGRESS /\ a_user_id a = uid.
Proof.
  intros Hc Hq Href.
  destruct (create_exam_shape _ _ _ _ Hc) as (-> & Hid & Hst & Hv & Hqi & Hd).
  split; [exact Hst|]; split; [exact Hv|]; split; [rewrite Hid; apply new_oid_fresh|].
  assert (Hf : find_exam (mkDB (questions st) (exams st ++ [e]) (exam_attempts st) (users_xp st))
                 (e_id e) = Some e) by (apply find_first_new_exam, Hid).
  split; [exact Hf|].
  unfold publish_exam; rewrite Hf, Hqi.
  destruct (c_question_ids data) as [|q qs]; [congruence|].
  eexists; split; [reflexivity|].
  assert (Hf2 : find_exam (mkDB (questions st)
                  (update_first (fun x => N.eqb (e_id x) (e_id e))
                     (fun x => with_status x PUBLISHED) (exams st ++ [e]))
                  (exam_attempts st) (users_xp st)) (e_id e) = Some (with_status e PUBLISHED))
    by (unfold find_exam in *; simpl in *; rewrite find_first_update_same, Hf by reflexivity;
        reflexivity).
  cbn [questions exams exam_attempts users_xp]; unfold start_exam; rewrite Hf2; simpl.
  destruct (find_first (is_active_for (e_id e) uid) (exam_attempts st)) as [a|] eqn:Ha.
  - exfalso; apply find_first_some in Ha as [Ha Hin].
    unfold is_active_for in Ha; apply andb_true_iff in Ha as [Ha _];
      apply andb_true_iff in Ha as [Ha _]; apply N.eqb_eq in Ha.
    apply (new_oid_fresh (map e_id (exams st))); rewrite <- Hid, <- Ha; apply Href, Hin.
  - exists (mkAttempt (new_oid (map a_id (exam_attempts st))) (e_id e) (e_version e) uid
              IN_PROGRESS [] now None None).
    split; [rewrite Hd; reflexivity|]; simpl; split; [exact Hv|]; split; reflexivity.
Qed.

(** X5 witness: a second exam over question 2 in the fixture store. *)
Lemma create_publish_start_witness :
  exists st1 e, create_exam (fx_db (fx_exam 5 0 [1%N] PUBLISHED))
                  (mkExamCreate "Second" 30 100 40 false true [2%N]) = (st1, e) /\
    e_id e = 2%N /\
    exists st2, publish_exam st1 (e_id e) = inr st2 /\
    exists a, start_exam st2 (e_id e) 7 100 =
      inr (mkDB fx_questions (exams st2)
             (exam_attempts (fx_db (fx_exam 5 0 [1%N] PUBLISHED)) ++ [a]) [(7%N, 0%Z)],
           mkStartResp (a_id a) 100 1800 []).
Proof.
  destruct (create_exam (fx_db (fx_exam 5 0 [1%N] PUBLISHED))
              (mkExamCreate "Second" 30 100 40 false true [2%N])) as [st1 e] eqn:E.
  assert (Hid : e_id e = 2%N) by (vm_compute in E; injection E as _ <-; reflexivity).
  destruct (create_publish_start _ _ _ _ 7 100 E ltac:(discriminate)
              ltac:(intros a [<-|[]]; left; reflexivity))
    as (_ & _ & _ & _ & st2 & P & a & S & _).
  exists st1, e; split; [reflexivity|]; split; [exact Hid|].
  exists st2; split; [exact P|]; exists a; exact S.
Defined.

(** ** X6: starting an exam *)

(** X6: [start_exam] fails with NotFound on an unknown exam and with
    NotAvailable on a DRAFT, COMPLETED or ARCHIVED one; on a PUBLISHED or
    ACTIVE exam where the user has no IN_PROGRESS attempt it appends one
    attempt, with an id no attempt had, bound to the exam's current
    version, with no answers, started now, and returns the full duration
    in seconds. *)
Theorem start_exam_outcomes st id uid now :
  (find_exam st id = None -> start_exam st id uid now = inl NotFound) /\
  (forall ex, find_exam st id = Some ex ->
     ~ (e_status ex = PUBLISHED \/ e_status ex = ACTIVE) ->
     start_exam st id uid now = inl NotAvailable) /\
  (forall ex, find_exam st id = Some ex ->
     (e_status ex = PUBLISHED \/ e_status ex = ACTIVE) ->
     find_first (is_active_for id uid) (exam_attempts st) = None ->
     exists a, start_exam st id uid now =
       inr (mkDB (questions st) (exams st) (exam_attempts st ++ [a]) (users_xp st),
            mkStartResp (a_id a) now (e_duration_minutes ex * 60)%Z []) /\
       ~ In (a_id a) (map a_id (exam_attempts st)) /\
       a_exam_id a = id /\ a_user_id a = uid /\ a_exam_version a = e_version ex /\
       a_status a = IN_PROGRESS /\ a_answers a = [] /\ a_started_at a = now /\
       a_evaluation a = None).
Proof.
  split; [intros H; unfold start_exam; rewrite H; reflexivity|].
  split.
  - intros ex H Hs; apply (start_exam_not_startable _ _ ex); auto.
    destruct (startable (e_status ex)) eqn:E; auto; exfalso; apply Hs, startable_iff, E.
  - intros ex H Hs Hn; apply startable_iff in Hs.
    unfold start_exam; rewrite H, Hs, Hn; simpl.
    exists (mkAttempt (new_oid (map a_id (exam_attempts st))) id (e_version ex) uid
              IN_PROGRESS [] now None None).
    split; [reflexivity|]; simpl; split; [apply new_oid_fresh|].
    repeat split.
Qed.

(** X6 witness: user 8 starts exam 1, user 7 cannot start a DRAFT. *)
Lemma start_exam_outcomes_witness :
  start_exam (fx_db (fx_exam 5 0 [1%N] DRAFT)) 1 7 0 = inl NotAvailable /\
  exists a, start_exam (fx_db (fx_exam 5 0 [1%N] PUBLISHED)) 1 8 50 =
    inr (mkDB fx_questions [fx_exam 5 0 [1%N] PUBLISHED]
           (exam_attempts (fx_db (fx_exam 5 0 [1%N] PUBLISHED)) ++ [a]) [(7%N, 0%Z)],
         mkStartResp (a_id a) 50 3600 []) /\ a_exam_version a = 1%Z.
Proof.
  split.
  - apply (proj1 (proj2 (start_exam_outcomes (fx_db (fx_exam 5 0 [1%N] DRAFT)) 1 7 0))
             (fx_exam 5 0 [1%N] DRAFT) eq_refl).
    simpl; intros [H|H]; discriminate.
  - destruct (proj2 (proj2 (start_exam_outcomes (fx_db (fx_exam 5 0 [1%N] PUBLISHED)) 1 8 50))
                (fx_exam 5 0 [1%N] PUBLISHED) eq_refl (or_introl eq_refl) eq_refl)
      as (a & S & _ & _ & _ & V & _).
    exists a; split; [exact S|exact V].
Defined.

(** ** X7: resuming an attempt *)

(** X7: when the user already has an IN_PROGRESS attempt on a startable
    exam, [start_exam] writes nothing, returns that attempt with its saved
    answers, and a remaining time between 0 and the exam's duration in
    seconds (0 when the duration is negative). *)
Theorem start_exam_resume_remaining st id uid now ex a :
  find_exam st id = Some ex -> (e_status ex = PUBLISHED \/ e_status ex = ACTIVE) ->
  find_first (is_active_for id uid) (exam_attempts st) = Some a ->
  exists t, start_exam st id uid now =
              inr (st, mkStartResp (a_id a) (a_started_at a) t (a_answers a)) /\
            (0 <= t <= Z.max 0 (e_duration_minutes ex * 60))%Z.
Proof.
  intros H Hs Ha; apply startable_iff in Hs.
  unfold start_exam; rewrite H, Hs, Ha; simpl.
  eexists; split; [reflexivity|].
  assert (0 <= td_seconds (now - a_started_at a))%Z
    by (unfold td_seconds; apply Z.mod_pos_bound; lia).
  lia.
Qed.

(** X7 witness: user 7 resumes attempt 1 an hour and a half after it
    started. *)
Lemma start_exam_resume_remaining_witness :
  exists t, start_exam (fx_db (fx_exam 5 0 [1%N] PUBLISHED)) 1 7 5400000000 =
    inr (fx_db (fx_exam 5 0 [1%N] PUBLISHED), mkStartResp 1 0 t []) /\ (0 <= t <= 3600)%Z.
Proof.
  exact (start_exam_resume_remaining (fx_db (fx_exam 5 0 [1%N] PUBLISHED)) 1 7 5400000000
           (fx_exam 5 0 [1%N] PUBLISHED) (mkAttempt 1 1 1 7 IN_PROGRESS [] 0 None None)
           eq_refl (or_introl eq_refl) eq_refl).
Defined.

(* ------------------------------------------------------------------ *)
(** ** Attempts: saving, submitting, reading *)

Lemma find_attempt_update st aid f :
  (forall x, a_id (f x) = a_id x) ->
  find_first (fun x => N.eqb (a_id x) aid)
    (update_first (fun x => N.eqb (a_id x) aid) f (exam_attempts st))
  = option_map f (find_attempt st aid).
Proof. intros Hf; apply find_first_update_same; intros x; rewrite Hf; reflexivity. Qed.

Lemma sync_answers_ok st aid uid answers now st' n :
  sync_answers st aid uid answers now = inr (st', n) ->
  exists a, find_attempt st aid = Some a /\ a_user_id a = uid /\ a_status a = IN_PROGRESS /\
    st' = mkDB (questions st) (exams st)
            (update_first (fun x => N.eqb (a_id x) aid) (fun x => with_sync x answers now)
               (exam_attempts st)) (users_xp st) /\
    n = Z.of_nat (List.length answers).
Proof.
  unfold sync_answers; destruct (find_attempt st aid) as [a|] eqn:Ha; [|discriminate].
  destruct (N.eqb (a_user_id a) uid) eqn:Hu; simpl; [|discriminate].
  destruct (AttemptStatus_eqb (a_status a) IN_PROGRESS) eqn:Hs; simpl; [|discriminate].
  intros [= <- <-]; exists a; split; [reflexivity|]; split; [apply N.eqb_eq, Hu|].
  split; [destruct (a_status a); simpl in Hs; congruence|]; auto.
Qed.

(** ** X8: saving answers *)

(** X8: [sync_answers] answers NotFound both for an unknown attempt and
    for another user's attempt; on the caller's IN_PROGRESS attempt it
    replaces the saved answers by the list sent, records the sync time,
    keeps every other field, changes no other document, and returns the
    length of the list. *)
Theorem sync_answers_behaviour st aid uid answers now :
  (find_attempt st aid = None -> sync_answers st aid uid answers now = inl NotFound) /\
  (forall a, find_attempt st aid = Some a -> a_user_id a <> uid ->
     sync_answers st aid uid answers now = inl NotFound) /\
  (forall a, find_attempt st aid = Some a -> a_user_id a = uid -> a_status a = IN_PROGRESS ->
     exists st', sync_answers st aid uid answers now = inr (st', Z.of_nat (List.length answers)) /\
       find_attempt st' aid = Some (with_sync a answers now) /\
       (forall aid', aid' <> aid -> find_attempt st' aid' = find_attempt st aid') /\
       List.length (exam_attempts st') = List.length (exam_attempts st) /\
       questions st' = questions st /\ exams st' = exams st /\ users_xp st' = users_xp st).
Proof.
  split; [intros H; unfold sync_answers; rewrite H; reflexivity|].
  split.
  - intros a H Hu; unfold sync_answers; rewrite H.
    apply N.eqb_neq in Hu; rewrite Hu; reflexivity.
  - intros a H Hu Hs; unfold sync_answers; rewrite H, Hu, N.eqb_refl, Hs; simpl.
    eexists; split; [reflexivity|].
    split; [unfold find_attempt at 1; simpl; rewrite find_attempt_update, H by reflexivity;
            reflexivity|].
    split; [intros aid' Hne; unfold find_attempt at 1; simpl;
            apply find_attempt_update_other; auto|].
    split; [simpl; apply update_first_length|]; auto.
Qed.

(** X8 witness: user 7 saves two answers on attempt 1; user 8 cannot. *)
Lemma sync_answers_behaviour_witness :
  sync_answers (fx_db (fx_exam 5 0 [1%N] PUBLISHED)) 1 8 [] 5 = inl NotFound /\
  exists st', sync_answers (fx_db (fx_exam 5 0 [1%N] PUBLISHED)) 1 7
                [fx_answer 1 "a"; fx_answer 2 "b"] 5 = inr (st', 2%Z) /\
    find_attempt st' 1 = Some (with_sync (mkAttempt 1 1 1 7 IN_PROGRESS [] 0 None None)
                                 [fx_answer 1 "a"; fx_answer 2 "b"] 5).
Proof.
  destruct (sync_answers_behaviour (fx_db (fx_exam 5 0 [1%N] PUBLISHED)) 1 8 [] 5)
    as (_ & H8 & _).
  destruct (sync_answers_behaviour (fx_db (fx_exam 5 0 [1%N] PUBLISHED)) 1 7
              [fx_answer 1 "a"; fx_answer 2 "b"] 5) as (_ & _ & H7).
  split; [apply (H8 (mkAttempt 1 1 1 7 IN_PROGRESS [] 0 None None) eq_refl); discriminate|].
  destruct (H7 (mkAttempt 1 1 1 7 IN_PROGRESS [] 0 None None) eq_refl eq_refl eq_refl)
    as (st' & E & F & _).
  eauto.
Defined.

(** ** X9: the last save wins *)

(** X9: two successful saves in a row leave the store exactly as the
    second save alone would have, and return the same count. *)
Theorem sync_last_write_wins st aid uid a1 t1 a2 t2 st1 n :
  sync_answers st aid uid a1 t1 = inr (st1, n) ->
  sync_answers st1 aid uid a2 t2 = sync_answers st aid uid a2 t2.
Proof.
  intros H; destruct (sync_answers_ok _ _ _ _ _ _ _ H) as (a & Ha & Hu & Hs & -> & _).
  unfold sync_answers at 1; unfold find_attempt at 1; simpl.
  rewrite find_attempt_update, Ha by reflexivity; simpl.
  unfold sync_answers; rewrite Ha, Hu, N.eqb_refl, Hs; simpl.
  f_equal; f_equal; f_equal.
  rewrite update_first_twice by reflexivity; apply update_first_ext; reflexivity.
Qed.

(** X9 witness: two saves on attempt 1. *)
Lemma sync_last_write_wins_witness :
  exists st1 n, sync_answers (fx_db (fx_exam 5 0 [1%N] PUBLISHED)) 1 7 [fx_answer 1 "a"] 5
                  = inr (st1, n) /\
    sync_answers st1 1 7 [fx_answer 2 "b"] 6
    = sync_answers (fx_db (fx_exam 5 0 [1%N] PUBLISHED)) 1 7 [fx_answer 2 "b"] 6.
Proof.
  destruct (sync_answers (fx_db (fx_exam 5 0 [1%N] PUBLISHED)) 1 7 [fx_answer 1 "a"] 5)
    as [e|[st1 n]] eqn:E; [vm_compute in E; discriminate|].
  exists st1, n; split; [reflexivity|].
  exact (sync_last_write_wins _ _ _ _ _ _ _ _ _ E).
Defined.

(** ** X10: grading ignores the saved answers *)

(** X10: after a successful save, [submit_exam] returns what it would
    have returned without the save: only the answers sent with the
    submission are graded. *)
Theorem submit_ignores_synced_answers st aid uid a1 t1 st1 n answers now :
  sync_answers st aid uid a1 t1 = inr (st1, n) ->
  match submit_exam st1 aid uid answers now, submit_exam st aid uid answers now with
  | inr (_, r1), inr (_, r2) => r1 = r2
  | inl e1, inl e2 => e1 = e2
  | _, _ => False
  end.
Proof.
  intros H; destruct (sync_answers_ok _ _ _ _ _ _ _ H) as (a & Ha & Hu & Hs & -> & _).
  unfold submit_exam at 1; unfold find_attempt at 1; simpl.
  rewrite find_attempt_update, Ha by reflexivity; simpl.
  unfold submit_exam; rewrite Ha, Hu, N.eqb_refl, Hs; simpl.
  unfold find_exam; simpl.
  destruct (find_first (fun e => N.eqb (e_id e) (a_exam_id a)) (exams st)); reflexivity.
Qed.

(** X10 witness: answers saved, then a different submission. *)
Lemma submit_ignores_synced_answers_witness :
  exists st1 n, sync_answers (fx_db (fx_exam 5 0 [1%N] PUBLISHED)) 1 7 [fx_answer 1 "a"] 5
                  = inr (st1, n) /\
    match submit_exam st1 1 7 [fx_answer 1 "z"] 9,
          submit_exam (fx_db (fx_exam 5 0 [1%N] PUBLISHED)) 1 7 [fx_answer 1 "z"] 9 with
    | inr (_, r1), inr (_, r2) => r1 = r2
    | inl e1, inl e2 => e1 = e2
    | _, _ => False
    end.
Proof.
  destruct (sync_answers (fx_db (fx_exam 5 0 [1%N] PUBLISHED)) 1 7 [fx_answer 1 "a"] 5)
    as [e|[st1 n]] eqn:E; [vm_compute in E; discriminate|].
  exists st1, n; split; [reflexivity|].
  exact (submit_ignores_synced_answers _ _ _ _ _ _ _ [fx_answer 1 "z"] 9 E).
Defined.

(** The loop counters of one answer do not depend on the earlier ones. *)
Lemma eval_step_counts n qs es a :
  es_correct_count (eval_step n qs es a)
    = (es_correct_count es + es_correct_count (eval_step n qs eval_init a))%Z /\
  es_incorrect_count (eval_step n qs es a)
    = (es_incorrect_count es + es_incorrect_count (eval_step n qs eval_init a))%Z /\
  es_detailed_results (eval_step n qs es a)
    = es_detailed_results es ++ es_detailed_results (eval_step n qs eval_init a) /\
  es_answered_ids (eval_step n qs es a) = set_add (ans_question_id a) (es_answered_ids es).
Proof.
  unfold eval_step; destruct (dict_get qs (ans_question_id a)); simpl;
    [destruct (is_correct _ _); simpl|]; repeat split; lia || (rewrite ?app_nil_r; reflexivity).
Qed.

Lemma fold_eval_counts n qs l es :
  es_correct_count (fold_left (eval_step n qs) l es)
    = (es_correct_count es + es_correct_count (evaluate n qs l))%Z /\
  es_incorrect_count (fold_left (eval_step n qs) l es)
    = (es_incorrect_count es + es_incorrect_count (evaluate n qs l))%Z /\
  es_detailed_results (fold_left (eval_step n qs) l es)
    = es_detailed_results es ++ es_detailed_results (evaluate n qs l).
Proof.
  unfold evaluate; revert es; induction l as [|a l IH]; intros es; simpl.
  - repeat split; [lia|lia|rewrite app_nil_r; reflexivity].
  - destruct (IH (eval_step n qs es a)) as (H1 & H2 & H3).
    destruct (IH (eval_step n qs eval_init a)) as (H1' & H2' & H3').
    destruct (eval_step_counts n qs es a) as (E1 & E2 & E3 & _).
    rewrite H1, H2, H3, H1', H2', H3', E1, E2, E3.
    repeat split; [lia|lia|rewrite app_assoc; reflexivity].
Qed.

(** The answered ids are the ids of the answers, in a set. *)
Lemma fold_eval_answered n qs l es :
  es_answered_ids (fold_left (eval_step n qs) l es)
  = fold_left (fun s a => set_add (ans_question_id a) s) l (es_answered_ids es).
Proof.
  revert es; induction l as [|a l IH]; intros es; simpl; auto.
  rewrite IH; destruct (eval_step_counts n qs es a) as (_ & _ & _ & ->); reflexivity.
Qed.

Lemma set_add_in x s : In x (set_add x s).
Proof.
  unfold set_add; destruct (existsb (N.eqb x) s) eqn:E.
  - apply existsb_exists in E as [y [Hy Hxy]]; apply N.eqb_eq in Hxy; subst; auto.
  - apply in_or_app; right; left; reflexivity.
Qed.

Lemma set_add_mono x y s : In y s -> In y (set_add x s).
Proof. unfold set_add; destruct (existsb _ _); auto; intros; apply in_or_app; auto. Qed.

Lemma set_add_id x s : In x s -> set_add x s = s.
Proof.
  unfold set_add; intros H; replace (existsb (N.eqb x) s) with true; auto.
  symmetry; apply existsb_exists; exists x; split; [auto|apply N.eqb_refl].
Qed.

Lemma fold_set_add_mono (l : list Answer) s y :
  In y s -> In y (fold_left (fun s a => set_add (ans_question_id a) s) l s).
Proof.
  revert s; induction l as [|a l IH]; intros s H; simpl; auto; apply IH, set_add_mono, H.
Qed.

Lemma fold_set_add_covers (l : list Answer) s a :
  In a l -> In (ans_question_id a) (fold_left (fun s a => set_add (ans_question_id a) s) l s).
Proof.
  revert s; induction l as [|b l IH]; intros s H; simpl; [destruct H|].
  destruct H as [<-|H]; [apply fold_set_add_mono, set_add_in|auto].
Qed.

Lemma fold_set_add_id (l : list Answer) s :
  (forall a, In a l -> In (ans_question_id a) s) ->
  fold_left (fun s a => set_add (ans_question_id a) s) l s = s.
Proof.
  revert s; induction l as [|a l IH]; intros s H; simpl; auto.
  rewrite set_add_id by (apply H; left; auto); apply IH; intros b Hb; apply H; right; auto.
Qed.

(** The [questions.get] of an answer finds a question exactly when the
    exam lists its id and the bank holds it. *)
Lemma dict_get_questions_in st ids qid :
  match dict_get (questions_in st ids) qid with Some _ => true | None => false end
  = existsb (N.eqb qid) ids && existsb (fun q => N.eqb (q_id q) qid) (questions st).
Proof.
  rewrite dict_get_some; unfold questions_in; induction (questions st) as [|q qs IH]; simpl.
  - rewrite andb_false_r; reflexivity.
  - destruct (existsb (N.eqb (q_id q)) ids) eqn:E; simpl; rewrite IH;
      destruct (N.eqb (q_id q) qid) eqn:Eq; simpl; rewrite ?andb_true_r, ?orb_true_r; auto.
    + apply N.eqb_eq in Eq; subst; rewrite E; reflexivity.
    + apply N.eqb_eq in Eq; subst; rewrite E; reflexivity.
Qed.

Lemma evaluate_known_count n qs l :
  (es_correct_count (evaluate n qs l) + es_incorrect_count (evaluate n qs l))%Z
  = Z.of_nat (List.length (filter (fun a => match dict_get qs (ans_question_id a) with
                                            | Some _ => true | None => false end) l)) /\
  List.length (es_detailed_results (evaluate n qs l))
  = List.length (filter (fun a => match dict_get qs (ans_question_id a) with
                                  | Some _ => true | None => false end) l).
Proof.
  induction l as [|a l IH]; [split; reflexivity|].
  unfold evaluate; simpl; fold (evaluate n qs).
  destruct (fold_eval_counts n qs l (eval_step n qs eval_init a)) as (H1 & H2 & H3).
  rewrite H1, H2, H3, length_app.
  destruct IH as [IH1 IH2]; unfold eval_step.
  destruct (dict_get qs (ans_question_id a)); cbn -[Z.add Z.of_nat];
    [destruct (is_correct _ _); cbn -[Z.add Z.of_nat]|]; lia.
Qed.

Lemma submit_exam_stored st aid uid answers now st' r :
  submit_exam st aid uid answers now = inr (st', r) ->
  exists att exam,
    find_attempt st aid = Some att /\ a_user_id att = uid /\
    find_exam st (a_exam_id att) = Some exam /\
    find_attempt st' aid = Some (with_evaluation att answers (evaluation_of st att exam answers now)) /\
    r = snd (submit_eval st aid uid att exam answers now) /\
    st' = fst (submit_eval st aid uid att exam answers now).
Proof.
  intros H; destruct (submit_exam_ok _ _ _ _ _ _ _ H) as (att & exam & Ha & Hu & _ & He & Heq).
  exists att, exam; split; [exact Ha|]; split; [exact Hu|]; split; [exact He|].
  split; [|split; [rewrite <- Heq; reflexivity|rewrite <- Heq; reflexivity]].
  replace st' with (fst (submit_eval st aid uid att exam answers now)) by (rewrite <- Heq; reflexivity).
  apply submit_eval_attempt, Ha.
Qed.

(** Every entry of [detailed_results] comes from a question of the query. *)
Lemma evaluate_details_from n qs l d :
  In d (es_detailed_results (evaluate n qs l)) ->
  exists q, In q qs /\ d_question_id d = q_id q /\ d_correct_answer d = q_correct_answer q.
Proof.
  unfold evaluate.
  assert (Hinit : forall d, In d (es_detailed_results eval_init) ->
            exists q, In q qs /\ d_question_id d = q_id q /\ d_correct_answer d = q_correct_answer q)
    by (intros ? []).
  revert Hinit; generalize eval_init as es; induction l as [|a l IH]; intros es Hes; simpl; auto.
  apply IH; intros d' Hd'.
  unfold eval_step in Hd'; destruct (dict_get qs (ans_question_id a)) as [q|] eqn:Hq; simpl in Hd';
    [|apply Hes; exact Hd'].
  apply in_app_or in Hd' as [Hd'|[<-|[]]]; [apply Hes; exact Hd'|].
  unfold dict_get in Hq; apply find_first_some in Hq as [Hid Hin].
  apply N.eqb_eq in Hid; exists q; split; [apply in_rev; exact Hin|]; simpl; auto.
Qed.

(** ** X11: what the counts count *)

(** X11: after a successful [submit_exam], correct_count plus
    incorrect_count is the number of submitted answers (repeats included)
    whose question id the exam lists and the question bank holds, and the
    stored detailed_results has one entry per such answer. *)
Theorem submit_counts st aid uid answers now st' r :
  submit_exam st aid uid answers now = inr (st', r) ->
  exists att exam ev,
    find_attempt st aid = Some att /\ find_exam st (a_exam_id att) = Some exam /\
    option_map a_evaluation (find_attempt st' aid) = Some (Some ev) /\
    Z.of_nat (List.length (ev_detailed_results ev)) = (sp_correct_count r + sp_incorrect_count r)%Z /\
    (sp_correct_count r + sp_incorrect_count r)%Z =
    Z.of_nat (List.length (filter (fun ans =>
      existsb (N.eqb (ans_question_id ans)) (e_question_ids exam)
      && existsb (fun q => N.eqb (q_id q) (ans_question_id ans)) (questions st)) answers)).
Proof.
  intros H; destruct (submit_exam_stored _ _ _ _ _ _ _ H) as (att & exam & Ha & _ & He & Hs & -> & _).
  exists att, exam, (evaluation_of st att exam answers now).
  split; [exact Ha|]; split; [exact He|]; split; [rewrite Hs; reflexivity|].
  destruct (evaluate_known_count (e_negative_marking exam) (questions_in st (e_question_ids exam))
              answers) as [C D].
  simpl; rewrite C, D; split; [reflexivity|].
  f_equal; f_equal; apply filter_ext; intros ans; apply dict_get_questions_in.
Qed.

(** X11 witness: two answers to exam questions, one to a foreign id. *)
Lemma submit_counts_witness :
  exists st' r, submit_exam (fx_db (fx_exam 5 0 [1%N; 2%N] PUBLISHED)) 1 7
                  [fx_answer 1 "a"; fx_answer 2 "x"; fx_answer 9 "a"] 10 = inr (st', r) /\
    (sp_correct_count r + sp_incorrect_count r = 2)%Z.
Proof.
  destruct (submit_exam (fx_db (fx_exam 5 0 [1%N; 2%N] PUBLISHED)) 1 7
              [fx_answer 1 "a"; fx_answer 2 "x"; fx_answer 9 "a"] 10) as [e|[st' r]] eqn:E;
    [vm_compute in E; discriminate|].
  exists st', r; split; [reflexivity|].
  destruct (submit_counts _ _ _ _ _ _ _ E) as (att & exam & ev & Ha & He & _ & _ & C).
  vm_compute in Ha; injection Ha as <-; vm_compute in He; injection He as <-.
  rewrite C; reflexivity.
Defined.

(** ** X12: hidden results can be read back *)

(** X12: when the exam has show_result_immediately off, the response of
    [submit_exam] carries no detailed_results, yet the owner (whatever
    their role) reads them through [get_attempt], one entry per graded
    answer, each with the question's correct answer. *)
Theorem hidden_results_readable st aid uid answers now st' r att exam role :
  submit_exam st aid uid answers now = inr (st', r) ->
  find_attempt st aid = Some att -> find_exam st (a_exam_id att) = Some exam ->
  e_show_result_immediately exam = false ->
  sp_detailed_results r = None /\
  exists v ev, get_attempt st' aid uid role = inr v /\ a_evaluation (av_attempt v) = Some ev /\
    Z.of_nat (List.length (ev_detailed_results ev)) = (sp_correct_count r + sp_incorrect_count r)%Z /\
    (forall d, In d (ev_detailed_results ev) ->
       exists q, In q (questions st) /\ d_question_id d = q_id q /\
                 d_correct_answer d = q_correct_answer q).
Proof.
  intros H Ha He Hshow.
  destruct (submit_exam_stored _ _ _ _ _ _ _ H) as (att' & exam' & Ha' & Hu & He' & Hs & -> & _).
  rewrite Ha in Ha'; injection Ha' as <-; rewrite He in He'; injection He' as <-.
  split; [simpl; rewrite Hshow; reflexivity|].
  unfold get_attempt; rewrite Hs; simpl; rewrite Hu, N.eqb_refl; simpl.
  eexists; eexists; split; [reflexivity|]; split; [reflexivity|].
  destruct (evaluate_known_count (e_negative_marking exam) (questions_in st (e_question_ids exam))
              answers) as [C D].
  simpl; rewrite C, D; split; [reflexivity|].
  intros d Hd; destruct (evaluate_details_from _ _ _ _ Hd) as (q & Hq & H1 & H2).
  exists q; split; [unfold questions_in in Hq; apply filter_In in Hq; apply Hq|auto].
Qed.

(** X12 witness: exam 1 with show_result_immediately off. *)
Lemma hidden_results_readable_witness :
  exists st' r,
    submit_exam (mkDB fx_questions [mkExam 1 "Exam" 60 5 0 true false [1%N] PUBLISHED 1]
                   [mkAttempt 1 1 1 7 IN_PROGRESS [] 0 None None] [(7%N, 0%Z)])
      1 7 [fx_answer 1 "x"] 10 = inr (st', r) /\
    sp_detailed_results r = None /\
    exists v ev, get_attempt st' 1 7 STUDENT = inr v /\ a_evaluation (av_attempt v) = Some ev /\
      List.length (ev_detailed_results ev) = 1%nat.
Proof.
  destruct (submit_exam (mkDB fx_questions [mkExam 1 "Exam" 60 5 0 true false [1%N] PUBLISHED 1]
                   [mkAttempt 1 1 1 7 IN_PROGRESS [] 0 None None] [(7%N, 0%Z)])
      1 7 [fx_answer 1 "x"] 10) as [e|[st' r]] eqn:E; [vm_compute in E; discriminate|].
  destruct (hidden_results_readable _ _ _ _ _ _ _ (mkAttempt 1 1 1 7 IN_PROGRESS [] 0 None None)
              (mkExam 1 "Exam" 60 5 0 true false [1%N] PUBLISHED 1) STUDENT E eq_refl eq_refl eq_refl)
    as (N & v & ev & G & Ev & L & _).
  exists st', r; split; [reflexivity|]; split; [exact N|].
  exists v, ev; split; [exact G|]; split; [exact Ev|].
  vm_compute in E; injection E as <- <-; vm_compute in G; injection G as <-.
  vm_compute in Ev; injection Ev as <-; reflexivity.
Defined.

(** ** X13: submitted results read back *)

(** X13: after a successful [submit_exam], [get_attempt] by the same user
    returns the attempt EVALUATED, holding the submitted answers and an
    evaluation whose score, pass flag, counts and time taken are those of
    the response, and whose percentage rounds to the returned one. *)
Theorem submit_then_get_attempt st aid uid answers now st' r role :
  submit_exam st aid uid answers now = inr (st', r) ->
  exists v ev, get_attempt st' aid uid role = inr v /\
    a_status (av_attempt v) = EVALUATED /\ a_answers (av_attempt v) = answers /\
    a_evaluation (av_attempt v) = Some ev /\
    ev_score ev = sp_score r /\ py_round2 (ev_percentage ev) = sp_percentage r /\
    ev_passed ev = sp_passed r /\ ev_correct_count ev = sp_correct_count r /\
    ev_incorrect_count ev = sp_incorrect_count r /\
    ev_unanswered_count ev = sp_unanswered_count r /\
    ev_time_taken_seconds ev = sp_time_taken_seconds r.
Proof.
  intros H.
  destruct (submit_exam_stored _ _ _ _ _ _ _ H) as (att & exam & Ha & Hu & He & Hs & -> & _).
  unfold get_attempt; rewrite Hs; simpl; rewrite Hu, N.eqb_refl; simpl.
  eexists; eexists; split; [reflexivity|]; repeat split.
Qed.

(** X13 witness: user 7 submits attempt 1 and reads it back. *)
Lemma submit_then_get_attempt_witness :
  exists st' r, submit_exam (fx_db (fx_exam 5 0 [1%N] PUBLISHED)) 1 7 [fx_answer 1 "a"] 10
                  = inr (st', r) /\
    exists v ev, get_attempt st' 1 7 STUDENT = inr v /\ a_evaluation (av_attempt v) = Some ev /\
      ev_score ev = sp_score r.
Proof.
  destruct (submit_exam (fx_db (fx_exam 5 0 [1%N] PUBLISHED)) 1 7 [fx_answer 1 "a"] 10)
    as [e|[st' r]] eqn:E; [vm_compute in E; discriminate|].
  destruct (submit_then_get_attempt _ _ _ _ _ _ _ STUDENT E)
    as (v & ev & G & _ & _ & Ev & S & _).
  exists st', r; split; [reflexivity|]; exists v, ev; auto.
Defined.

(** ** X14: what a submission leaves alone *)

(** X14: a successful [submit_exam] changes no question and no exam,
    keeps the number of attempts, leaves every other attempt as it was and
    leaves every other user's XP balance as it was. *)
Theorem submit_exam_frame st aid uid answers now st' r :
  submit_exam st aid uid answers now = inr (st', r) ->
  questions st' = questions st /\ exams st' = exams st /\
  List.length (exam_attempts st') = List.length (exam_attempts st) /\
  (forall aid', aid' <> aid -> find_attempt st' aid' = find_attempt st aid') /\
  (forall u, u <> uid -> xp_of (users_xp st') u = xp_of (users_xp st) u).
Proof.
  intros H; destruct (submit_exam_stored _ _ _ _ _ _ _ H) as (att & exam & _ & _ & _ & _ & _ & ->).
  simpl; split; [reflexivity|]; split; [reflexivity|].
  split; [apply update_first_length|]; split.
  - intros aid' Hne; unfold find_attempt; simpl; apply find_attempt_update_other; auto.
  - intros u Hne; unfold xp_of, inc_xp; f_equal; apply find_first_update_other.
    intros [u' b] Hx; simpl in *; apply N.eqb_eq in Hx; subst; split; apply N.eqb_neq; auto.
Qed.

(** X14 witness: a store with a second user. *)
Lemma submit_exam_frame_witness :
  exists st' r,
    submit_exam (mkDB fx_questions [fx_exam 5 0 [1%N] PUBLISHED]
                   [mkAttempt 1 1 1 7 IN_PROGRESS [] 0 None None] [(7%N, 0%Z); (8%N, 3%Z)])
      1 7 [fx_answer 1 "a"] 10 = inr (st', r) /\
    xp_of (users_xp st') 8 = Some 3%Z.
Proof.
  destruct (submit_exam (mkDB fx_questions [fx_exam 5 0 [1%N] PUBLISHED]
                   [mkAttempt 1 1 1 7 IN_PROGRESS [] 0 None None] [(7%N, 0%Z); (8%N, 3%Z)])
      1 7 [fx_answer 1 "a"] 10) as [e|[st' r]] eqn:E; [vm_compute in E; discriminate|].
  destruct (submit_exam_frame _ _ _ _ _ _ _ E) as (_ & _ & _ & _ & X).
  exists st', r; split; [reflexivity|]; rewrite X by discriminate; reflexivity.
Defined.

(** ** X15: repeated answers count again *)

Lemma evaluate_app_counts n qs l m :
  es_correct_count (evaluate n qs (l ++ m))
    = (es_correct_count (evaluate n qs l) + es_correct_count (evaluate n qs m))%Z /\
  es_incorrect_count (evaluate n qs (l ++ m))
    = (es_incorrect_count (evaluate n qs l) + es_incorrect_count (evaluate n qs m))%Z.
Proof.
  change (evaluate n qs (l ++ m)) with (fold_left (eval_step n qs) (l ++ m) eval_init).
  rewrite fold_left_app.
  destruct (fold_eval_counts n qs m (fold_left (eval_step n qs) l eval_init)) as (H1 & H2 & _).
  rewrite H1, H2; split; reflexivity.
Qed.

Lemma evaluate_answered_twice n qs l :
  es_answered_ids (evaluate n qs (l ++ l)) = es_answered_ids (evaluate n qs l).
Proof.
  unfold evaluate; rewrite !(fold_eval_answered n qs _ eval_init), fold_left_app; simpl.
  apply fold_set_add_id; intros a Ha; apply fold_set_add_covers, Ha.
Qed.

(** X15: [submit_exam] does not deduplicate answers: sending every answer
    twice doubles correct_count and incorrect_count, and leaves
    unanswered_count as it is. *)
Theorem submit_duplicate_answers st aid uid answers now :
  match submit_exam st aid uid answers now, submit_exam st aid uid (answers ++ answers) now with
  | inr (_, r1), inr (_, r2) =>
      sp_correct_count r2 = (2 * sp_correct_count r1)%Z /\
      sp_incorrect_count r2 = (2 * sp_incorrect_count r1)%Z /\
      sp_unanswered_count r2 = sp_unanswered_count r1
  | inl e1, inl e2 => e1 = e2
  | _, _ => False
  end.
Proof.
  unfold submit_exam; destruct (find_attempt st aid) as [att|]; [|reflexivity].
  destruct (negb _); [reflexivity|]; destruct (negb _); [reflexivity|].
  destruct (find_exam st (a_exam_id att)) as [exam|]; [|reflexivity].
  unfold submit_eval, evaluation_of; cbv zeta.
  cbn [snd sp_correct_count sp_incorrect_count sp_unanswered_count
       ev_correct_count ev_incorrect_count ev_unanswered_count].
  set (n := e_negative_marking exam); set (qs := questions_in st (e_question_ids exam)).
  destruct (evaluate_app_counts n qs answers answers) as [C I].
  rewrite C, I, evaluate_answered_twice.
  split; [lia|]; split; [lia|reflexivity].
Qed.

(** ** Reading attempts and listing exams *)

Section Pages.
Context {A : Type}.

Lemma in_firstn_in n (l : list A) x : In x (firstn n l) -> In x l.
Proof. intros H; rewrite <- (firstn_skipn n l); apply in_or_app; auto. Qed.

Lemma in_skipn_in n (l : list A) x : In x (skipn n l) -> In x l.
Proof. intros H; rewrite <- (firstn_skipn n l); apply in_or_app; auto. Qed.

Lemma sorted_skipn (R : A -> A -> Prop) n l : Sorted R l -> Sorted R (skipn n l).
Proof.
  revert l; induction n as [|n IH]; intros l H; simpl; auto.
  destruct l as [|x l]; auto; inversion H; auto.
Qed.

Lemma sorted_firstn (R : A -> A -> Prop) n l : Sorted R l -> Sorted R (firstn n l).
Proof.
  revert n; induction l as [|x l IH]; intros n H; destruct n as [|n]; simpl; auto.
  inversion H as [|? ? Hl Hhd]; subst; constructor; auto.
  destruct l as [|y l]; destruct n as [|n]; simpl; auto.
  inversion Hhd; constructor; auto.
Qed.

End Pages.

(** X16: [get_attempt] answers NotFound for an unknown attempt; for a
    stored one it answers Forbidden exactly when the caller does not own
    it and is a student or a teacher, and otherwise returns the attempt
    with the title of its exam. *)
Theorem get_attempt_access st aid uid role :
  match find_attempt st aid with
  | None => get_attempt st aid uid role = inl NotFound
  | Some a =>
      (get_attempt st aid uid role = inl Forbidden <->
         a_user_id a <> uid /\ (role = STUDENT \/ role = TEACHER)) /\
      (a_user_id a = uid \/ role = ADMIN \/ role = MANAGER ->
         get_attempt st aid uid role = inr (mkAttemptView a (exam_title_of st a)))
  end.
Proof.
  unfold get_attempt; destruct (find_attempt st aid) as [a|]; [|reflexivity].
  destruct (N.eqb (a_user_id a) uid) eqn:E.
  - apply N.eqb_eq in E; simpl; split; [split; [discriminate|tauto]|auto].
  - apply N.eqb_neq in E; destruct role; simpl; intuition congruence.
Qed.

(** X17: a page of [get_attempts] has at most [limit] items, each a stored
    attempt of the caller (of the requested exam, if one is given), ordered
    by [started_at], latest first; [total] counts every matching attempt,
    whatever the page. *)
Theorem get_attempts_page st uid eid skip limit :
  (List.length (fst (get_attempts st uid eid skip limit)) <= limit)%nat /\
  snd (get_attempts st uid eid skip limit)
    = Z.of_nat (List.length (filter (attempt_query uid eid) (exam_attempts st))) /\
  Forall (fun v => In (av_attempt v) (exam_attempts st) /\ a_user_id (av_attempt v) = uid /\
                   (forall e, eid = Some e -> a_exam_id (av_attempt v) = e))
    (fst (get_attempts st uid eid skip limit)) /\
  Sorted (fun x y => (a_started_at y <= a_started_at x)%Z)
    (map av_attempt (fst (get_attempts st uid eid skip limit))).
Proof.
  unfold get_attempts; cbn [fst snd]; split; [rewrite length_map; apply firstn_length_le_n|].
  split; [reflexivity|]; split.
  - apply Forall_forall; intros v Hv; apply in_map_iff in Hv as (a & <- & Ha); cbn [av_attempt].
    apply in_firstn_in, in_skipn_in in Ha.
    apply (Permutation_in _ (sort_by_perm _ _)) in Ha.
    apply filter_In in Ha as [Ha Hq]; unfold attempt_query in Hq.
    apply andb_true_iff in Hq as [Hu He]; apply N.eqb_eq in Hu.
    split; [exact Ha|]; split; [exact Hu|]; intros e ->; apply N.eqb_eq, He.
  - rewrite map_map; cbn [av_attempt]; rewrite map_id.
    apply sorted_firstn, sorted_skipn, (sort_by_sorted _ started_later).
    + intros x y H; unfold started_later in H; apply Z.ltb_lt in H; lia.
    + intros x y H; unfold started_later in H; apply Z.ltb_ge in H; lia.
Qed.

Lemma sorted_strict_of_nodup {A} (f : A -> Z) l :
  Sorted (fun x y => f y <= f x)%Z l -> NoDup (map f l) -> Sorted (fun x y => f y < f x)%Z l.
Proof.
  induction l as [|x l IH]; intros H Hnd; [constructor|].
  inversion H as [|? ? Hl Hhd]; subst; inversion Hnd as [|? ? Hx Hnd']; subst.
  constructor; auto.
  destruct l as [|y l]; constructor; inversion Hhd; subst.
  assert (f x <> f y) by (intros E; apply Hx; rewrite E; left; auto); lia.
Qed.

(** Two lists ordered by a strict order and holding the same elements are
    equal. *)
Lemma strongly_sorted_perm_eq {A} (R : A -> A -> Prop) :
  (forall x, ~ R x x) -> (forall x y z, R x y -> R y z -> R x z) ->
  forall l1 l2, StronglySorted R l1 -> StronglySorted R l2 -> Permutation l1 l2 -> l1 = l2.
Proof.
  intros Hirr Htr l1; induction l1 as [|a r1 IH]; intros l2 H1 H2 Hp.
  - symmetry; apply Permutation_nil, Hp.
  - destruct l2 as [|b r2]; [apply Permutation_sym, Permutation_nil_cons in Hp; contradiction|].
    apply StronglySorted_inv in H1 as [S1 F1]; apply StronglySorted_inv in H2 as [S2 F2].
    assert (Hb : In b (a :: r1)) by (apply (Permutation_in _ (Permutation_sym Hp)); left; auto).
    assert (Ha : In a (b :: r2)) by (apply (Permutation_in _ Hp); left; auto).
    destruct Hb as [->|Hb].
    + f_equal; apply IH; auto; apply Permutation_cons_inv in Hp; exact Hp.
    + destruct Ha as [->|Ha].
      * f_equal; apply IH; auto; apply Permutation_cons_inv in Hp; exact Hp.
      * rewrite Forall_forall in F1, F2.
        exfalso; apply (Hirr a), (Htr _ b); [apply F1|apply F2]; auto.
Qed.

(** X18: when no two attempts the query selects share a [started_at], the
    latest-first order of [get_attempts] is the only ordering of those
    attempts by [started_at], latest first, whatever order the database
    would return for equal keys; and consecutive pages then tile the
    listing: the page at [skip] of size [m] followed by the page at
    [skip + m] of size [m'] is the page at [skip] of size [m + m']. *)
Theorem get_attempts_pages_tile st uid eid (skip m m' : nat) :
  NoDup (map a_started_at (filter (attempt_query uid eid) (exam_attempts st))) ->
  (forall l, Permutation l (filter (attempt_query uid eid) (exam_attempts st)) ->
     Sorted (fun x y => a_started_at y < a_started_at x)%Z l ->
     l = sort_by started_later (filter (attempt_query uid eid) (exam_attempts st))) /\
  fst (get_attempts st uid eid skip m) ++ fst (get_attempts st uid eid (skip + m)%nat m')
  = fst (get_attempts st uid eid skip (m + m')%nat).
Proof.
  intros Hnd; split.
  - intros l Hp Hs.
    set (M := filter (attempt_query uid eid) (exam_attempts st)) in *.
    assert (Htr : forall x y z : Attempt,
      (a_started_at y < a_started_at x)%Z -> (a_started_at z < a_started_at y)%Z ->
      (a_started_at z < a_started_at x)%Z) by (intros; lia).
    apply (strongly_sorted_perm_eq (fun x y => a_started_at y < a_started_at x)%Z);
      [intros x; lia|exact Htr| | |].
    + apply Sorted_StronglySorted; [intros x y z; apply Htr|exact Hs].
    + apply Sorted_StronglySorted; [intros x y z; apply Htr|].
      apply sorted_strict_of_nodup.
      * apply (sort_by_sorted _ started_later).
        -- intros x y H; unfold started_later in H; apply Z.ltb_lt in H; lia.
        -- intros x y H; unfold started_later in H; apply Z.ltb_ge in H; lia.
      * eapply Permutation_NoDup; [|exact Hnd].
        apply Permutation_map, Permutation_sym, sort_by_perm.
    + eapply perm_trans; [exact Hp|apply Permutation_sym, sort_by_perm].
  - unfold get_attempts; cbn [fst]; rewrite <- map_app; f_equal.
    replace (skip + m)%nat with (m + skip)%nat by lia; rewrite <- skipn_skipn; apply firstn_pages.
Qed.

(** X18 witness: the attempts of user 7 in the fixture, pages of one. *)
Lemma get_attempts_pages_tile_witness :
  NoDup (map a_started_at (filter (attempt_query 7 None)
                             (exam_attempts (fx_db (fx_exam 5 0 [1%N] PUBLISHED))))) /\
  fst (get_attempts (fx_db (fx_exam 5 0 [1%N] PUBLISHED)) 7 None 0 1)
    ++ fst (get_attempts (fx_db (fx_exam 5 0 [1%N] PUBLISHED)) 7 None (0 + 1)%nat 1)
  = fst (get_attempts (fx_db (fx_exam 5 0 [1%N] PUBLISHED)) 7 None 0 (1 + 1)%nat).
Proof.
  assert (H : NoDup (map a_started_at (filter (attempt_query 7 None)
                (exam_attempts (fx_db (fx_exam 5 0 [1%N] PUBLISHED))))))
    by (simpl; constructor; [simpl; tauto|constructor]).
  split; [exact H|apply (get_attempts_pages_tile _ _ _ 0 1 1 H)].
Defined.

(** X19: [get_exams] for a student lists PUBLISHED and ACTIVE exams only,
    whatever [status] is passed, and when exam ids are distinct the student
    can start every exam listed; for other roles a [status] filter lists
    exams of that status only. *)
Theorem get_exams_listing st role status skip limit uid now :
  NoDup (map e_id (exams st)) ->
  Forall (fun e =>
            In e (exams st) /\
            (role = STUDENT -> (e_status e = PUBLISHED \/ e_status e = ACTIVE) /\
                               exists st' r, start_exam st (e_id e) uid now = inr (st', r)) /\
            (role <> STUDENT -> forall s, status = Some s -> e_status e = s))
    (fst (get_exams st role status skip limit)).
Proof.
  intros Hnd; unfold get_exams; cbn [fst]; apply Forall_forall; intros e He.
  apply in_firstn_in, in_skipn_in, in_rev, filter_In in He as [He Hq].
  split; [exact He|]; unfold exam_query in Hq; split.
  - intros ->; simpl in Hq; rewrite orb_false_r in Hq.
    assert (Hs : startable (e_status e) = true) by exact Hq.
    split; [apply startable_iff, Hs|].
    apply (start_exam_startable _ _ e); [|exact Hs].
    unfold find_exam; apply (find_first_nodup e_id N.eqb); auto; apply N.eqb_eq.
  - intros Hr s ->; destruct role; [congruence| | |];
      destruct (e_status e), s; simpl in Hq; congruence.
Qed.

(** X19 witness: the published fixture exam, listed for student 7. *)
Lemma get_exams_listing_witness :
  NoDup (map e_id (exams (fx_db (fx_exam 5 0 [1%N] PUBLISHED)))) /\
  Forall (fun e =>
            In e (exams (fx_db (fx_exam 5 0 [1%N] PUBLISHED))) /\
            (STUDENT = STUDENT -> (e_status e = PUBLISHED \/ e_status e = ACTIVE) /\
               exists st' r, start_exam (fx_db (fx_exam 5 0 [1%N] PUBLISHED)) (e_id e) 7 10
                               = inr (st', r)) /\
            (STUDENT <> STUDENT -> forall s, @None ExamStatus = Some s -> e_status e = s))
    (fst (get_exams (fx_db (fx_exam 5 0 [1%N] PUBLISHED)) STUDENT None 0 10)).
Proof.
  assert (H : NoDup (map e_id (exams (fx_db (fx_exam 5 0 [1%N] PUBLISHED)))))
    by (simpl; constructor; [simpl; tauto|constructor]).
  split; [exact H|apply get_exams_listing, H].
Defined.

(** ** Dashboard, chart and leaderboard *)

Lemma Qlt_bool_true a b : Qlt_bool a b = true -> a < b.
Proof.
  unfold Qlt_bool; intros H; apply Qnot_le_lt; intros H'.
  apply Qle_bool_iff in H'; rewrite H' in H; discriminate.
Qed.

Lemma Qlt_bool_false a b : Qlt_bool a b = false -> b <= a.
Proof. unfold Qlt_bool; intros H; apply Qle_bool_iff; destruct (Qle_bool b a); auto. Qed.

(** [round(x, 2)] is a multiple of 1/100 at most 1/200 away from [x]. *)
Lemma py_round2_near x :
  exists r, py_round2 x = inject_Z r / 100 /\
            inject_Z r - (1#2) <= x * 100 /\ x * 100 <= inject_Z r + (1#2).
Proof.
  unfold py_round2; cbv zeta.
  pose proof (Qfloor_le (x * 100)) as H1; pose proof (Qlt_floor (x * 100)) as H2.
  rewrite inject_Z_plus in H2; change (inject_Z 1) with 1 in H2.
  destruct (Qlt_bool (x * 100 - inject_Z (Qfloor (x * 100))) (1 # 2)) eqn:E1.
  { apply Qlt_bool_true in E1; eexists; split; [reflexivity|]; lra. }
  apply Qlt_bool_false in E1.
  destruct (Qlt_bool (1 # 2) (x * 100 - inject_Z (Qfloor (x * 100)))) eqn:E2.
  { apply Qlt_bool_true in E2; eexists; split; [reflexivity|].
    rewrite inject_Z_plus; change (inject_Z 1) with 1; lra. }
  apply Qlt_bool_false in E2.
  destruct (Z.even (Qfloor (x * 100))); eexists; (split; [reflexivity|]); [lra|].
  rewrite inject_Z_plus; change (inject_Z 1) with 1; lra.
Qed.

Lemma py_round2_bounds x : 0 <= x <= 100 -> 0 <= py_round2 x <= 100.
Proof.
  intros [H0 H1]; destruct (py_round2_near x) as (r & -> & Hl & Hu).
  assert (Hr0 : (-1 < r)%Z) by (rewrite Zlt_Qlt; change (inject_Z (-1)) with (-1); lra).
  assert (Hr1 : (r < 10001)%Z) by (rewrite Zlt_Qlt; change (inject_Z 10001) with 10001; lra).
  split.
  - apply Qle_shift_div_l; [reflexivity|]; rewrite Qmult_0_l.
    change 0 with (inject_Z 0); rewrite <- Zle_Qle; lia.
  - apply Qle_shift_div_r; [reflexivity|].
    change (100 * 100) with (inject_Z 10000); rewrite <- Zle_Qle; lia.
Qed.

(** [k / n * 100] with [0 <= k <= n], [0 < n]. *)
Lemma ratio100_bounds k n :
  (0 <= k <= n)%Z -> (0 < n)%Z -> 0 <= inject_Z k / inject_Z n * 100 <= 100.
Proof.
  intros Hk Hn; assert (Hq : 0 < inject_Z n) by (change 0 with (inject_Z 0); rewrite <- Zlt_Qlt; lia).
  split.
  - apply Qmult_le_0_compat; [|discriminate].
    apply Qle_shift_div_l; [exact Hq|]; rewrite Qmult_0_l.
    change 0 with (inject_Z 0); rewrite <- Zle_Qle; lia.
  - setoid_replace 100 with (1 * 100) at 2 by ring.
    apply Qmult_le_compat_r; [|discriminate].
    apply Qle_shift_div_r; [exact Hq|]; rewrite Qmult_1_l, <- Zle_Qle; lia.
Qed.

Lemma pass_rate_bounds l : 0 <= pass_rate l <= 100.
Proof.
  destruct l as [|a l]; [split; discriminate|].
  unfold pass_rate; apply ratio100_bounds.
  - pose proof (filter_length_le stored_passed (a :: l)); lia.
  - simpl; lia.
Qed.

(** X20: the pass rate of the dashboard lies between 0 and 100, for every
    role and every store. *)
Theorem dashboard_pass_rate_bounds st uid role :
  0 <= ds_pass_rate (get_dashboard_stats st uid role) <= 100.
Proof.
  unfold get_dashboard_stats; destruct (UserRole_eqb role STUDENT); apply pass_rate_bounds.
Qed.

Lemma xp_of_inc_xp uid n us :
  xp_of (inc_xp uid n us) uid = option_map (fun x => (x + n)%Z) (xp_of us uid).
Proof.
  unfold xp_of, inc_xp; induction us as [|[u x] us IH]; simpl; auto.
  destruct (N.eqb u uid) eqn:E; simpl; rewrite ?E; auto.
Qed.

(** X21: after a successful submission the student's dashboard counts one
    more exam taken, its XP grows by the [xp_earned] of the response (when
    the student has a user document), and the exam and attempt totals do
    not move. *)
Theorem submit_updates_dashboard st aid uid answers now st' r :
  submit_exam st aid uid answers now = inr (st', r) ->
  (exists k, ds_exams_taken (get_dashboard_stats st uid STUDENT) = Some k /\
             ds_exams_taken (get_dashboard_stats st' uid STUDENT) = Some (k + 1)%Z) /\
  (forall x, xp_of (users_xp st) uid = Some x ->
             ds_xp_points (get_dashboard_stats st' uid STUDENT) = Some (x + sp_xp_earned r)%Z) /\
  ds_total_exams (get_dashboard_stats st' uid STUDENT)
    = ds_total_exams (get_dashboard_stats st uid STUDENT) /\
  ds_total_attempts (get_dashboard_stats st' uid STUDENT)
    = ds_total_attempts (get_dashboard_stats st uid STUDENT).
Proof.
  intros H; destruct (submit_exam_ok _ _ _ _ _ _ _ H) as (att & exam & Ha & Hu & Hs & He & Heq).
  unfold submit_eval in Heq; injection Heq as -> ->.
  unfold get_dashboard_stats; cbn [UserRole_eqb exams exam_attempts users_xp
    ds_exams_taken ds_xp_points ds_total_exams ds_total_attempts sp_xp_earned].
  split; [|split; [|split; [reflexivity|rewrite update_first_length; reflexivity]]].
  - eexists; split; [reflexivity|]; f_equal.
    erewrite filter_update_first_succ; [lia|exact Ha| |].
    + unfold is_evaluated; rewrite Hs; apply andb_false_r.
    + unfold is_evaluated; simpl; rewrite Hu, N.eqb_refl; reflexivity.
  - intros x Hx; rewrite xp_of_inc_xp, Hx; reflexivity.
Qed.

(** X21 witness: student 7 with a user document submits attempt 1. *)
Lemma submit_updates_dashboard_witness :
  exists st' r, submit_exam (fx_db (fx_exam 5 0 [1%N] PUBLISHED)) 1 7 [fx_answer 1 "a"] 10
                  = inr (st', r) /\
    ds_exams_taken (get_dashboard_stats st' 7 STUDENT) = Some 1%Z.
Proof.
  destruct (submit_exam (fx_db (fx_exam 5 0 [1%N] PUBLISHED)) 1 7 [fx_answer 1 "a"] 10)
    as [e|[st' r]] eqn:E; [vm_compute in E; discriminate|].
  destruct (submit_updates_dashboard _ _ _ _ _ _ _ E) as ((k & H0 & H1) & _).
  vm_compute in H0; injection H0 as <-.
  exists st', r; split; [reflexivity|exact H1].
Defined.

Section ChartLists.

Lemma sum_perm (l l' : list Z) : Permutation l l' -> fold_right Z.add 0%Z l = fold_right Z.add 0%Z l'.
Proof. induction 1; simpl; lia. Qed.

Lemma sorted_map {A B} (f : A -> B) (R : B -> B -> Prop) l :
  Sorted (fun x y => R (f x) (f y)) l -> Sorted R (map f l).
Proof.
  induction l as [|x l IH]; intros H; simpl; [constructor|].
  inversion H as [|? ? Hl Hhd]; subst; constructor; auto.
  destruct l as [|y l]; simpl; constructor; inversion Hhd; auto.
Qed.

Lemma sorted_le_nodup_lt (l : list Z) : Sorted Z.le l -> NoDup l -> Sorted Z.lt l.
Proof.
  induction l as [|x l IH]; intros H Hnd; [constructor|].
  inversion H as [|? ? Hl Hhd]; subst; inversion Hnd as [|? ? Hx Hnd']; subst.
  constructor; auto.
  destruct l as [|y l]; constructor; inversion Hhd; subst.
  assert (x <> y) by (intros ->; apply Hx; left; auto); lia.
Qed.

Lemma map_fst_combine {A B} (l1 : list A) (l2 : list B) :
  List.length l1 = List.length l2 -> map fst (combine l1 l2) = l1.
Proof.
  revert l2; induction l1 as [|x l1 IH]; intros [|y l2] H; simpl in *; try discriminate; auto.
  rewrite IH; auto.
Qed.

Lemma map_snd_combine {A B} (l1 : list A) (l2 : list B) :
  List.length l1 = List.length l2 -> map snd (combine l1 l2) = l2.
Proof.
  revert l2; induction l1 as [|x l1 IH]; intros [|y l2] H; simpl in *; try discriminate; auto.
  rewrite IH; auto.
Qed.

End ChartLists.

Lemma bump_day_sum key a dd :
  fold_right Z.add 0%Z (map (fun kd => dd_attempts (snd kd)) (bump_day key a dd))
  = (1 + fold_right Z.add 0%Z (map (fun kd => dd_attempts (snd kd)) dd))%Z.
Proof.
  induction dd as [|[k d] dd IH]; cbn -[Z.add]; [reflexivity|].
  destruct (Z.eqb k key); cbn -[Z.add]; [|rewrite IH]; lia.
Qed.

Lemma fold_bump_sum l dd :
  fold_right Z.add 0%Z (map (fun kd => dd_attempts (snd kd))
    (fold_left (fun dd a => bump_day (day_of (a_started_at a)) a dd) l dd))
  = (Z.of_nat (List.length l) + fold_right Z.add 0%Z (map (fun kd => dd_attempts (snd kd)) dd))%Z.
Proof.
  revert dd; induction l as [|a l IH]; intros dd; cbn -[Z.add Z.of_nat]; [reflexivity|].
  rewrite IH, bump_day_sum; lia.
Qed.

Lemma bump_day_ok src key a dd :
  In a src -> day_of (a_started_at a) = key ->
  Forall (day_ok src) dd -> Forall (day_ok src) (bump_day key a dd).
Proof.
  intros Ha Hk; induction dd as [|[k d] dd IH]; intros H; simpl.
  - constructor; [|constructor].
    unfold day_ok, add_to_day; cbn [snd fst dd_attempts dd_passed].
    split; [lia|split; [destruct (stored_passed a); lia|exists a; auto]].
  - apply Forall_cons_iff in H as [Hd Hr].
    destruct (Z.eqb k key); constructor; auto.
    destruct Hd as (H1 & H2 & H3); unfold day_ok, add_to_day; cbn [snd fst dd_attempts dd_passed] in *.
    split; [lia|split; [destruct (stored_passed a); lia|exact H3]].
Qed.

Lemma fold_bump_ok src l dd :
  incl l src -> Forall (day_ok src) dd ->
  Forall (day_ok src) (fold_left (fun dd a => bump_day (day_of (a_started_at a)) a dd) l dd).
Proof.
  revert dd; induction l as [|a l IH]; intros dd Hl H; simpl; auto.
  apply IH; [intros x Hx; apply Hl; right; auto|].
  apply bump_day_ok; auto; apply Hl; left; auto.
Qed.

Lemma bump_day_keys key a dd x :
  In x (map fst (bump_day key a dd)) -> x = key \/ In x (map fst dd).
Proof.
  induction dd as [|[k d] dd IH]; simpl; [intuition|].
  destruct (Z.eqb k key); simpl; intuition.
Qed.

Lemma bump_day_nodup key a dd : NoDup (map fst dd) -> NoDup (map fst (bump_day key a dd)).
Proof.
  induction dd as [|[k d] dd IH]; simpl; intros H; [constructor; [tauto|constructor]|].
  inversion H as [|? ? Hk Hnd]; subst.
  destruct (Z.eqb k key) eqn:E; simpl; constructor; auto.
  intros Hin; apply bump_day_keys in Hin as [->|Hin]; [rewrite Z.eqb_refl in E; discriminate|auto].
Qed.

Lemma fold_bump_nodup l dd :
  NoDup (map fst dd) ->
  NoDup (map fst (fold_left (fun dd a => bump_day (day_of (a_started_at a)) a dd) l dd)).
Proof.
  revert dd; induction l as [|a l IH]; intros dd H; simpl; auto; apply IH, bump_day_nodup, H.
Qed.

(** X22: the attempts counted over the days of [get_performance_chart] add
    up to the number of evaluated attempts the query selects: every
    selected attempt lands in exactly one day. *)
Theorem chart_counts_every_attempt st uid role days now :
  fold_right Z.add 0%Z (map cp_attempts (get_performance_chart st uid role days now))
  = Z.of_nat (List.length
      (filter (chart_query uid role (now - days * 86400000000)%Z) (exam_attempts st))).
Proof.
  unfold get_performance_chart; cbv zeta; rewrite map_map.
  rewrite (map_ext _ (fun kd => dd_attempts (snd kd))) by (intros [k d]; reflexivity).
  rewrite (sum_perm _ _ (Permutation_map _ (sort_by_perm _ _))), fold_bump_sum.
  rewrite (Permutation_length (sort_by_perm _ _)); simpl; lia.
Qed.

(** X23: every point of [get_performance_chart] has at least one attempt,
    a pass rate between 0 and 100, and the date of a stored evaluated
    attempt that the query selects. *)
Theorem chart_points_valid st uid role days now :
  Forall (fun p =>
            (0 < cp_attempts p)%Z /\ 0 <= cp_pass_rate p <= 100 /\
            exists a, In a (exam_attempts st) /\ is_evaluated a = true /\
                      chart_query uid role (now - days * 86400000000)%Z a = true /\
                      day_of (a_started_at a) = cp_date p)
    (get_performance_chart st uid role days now).
Proof.
  unfold get_performance_chart; cbv zeta.
  set (src := filter (chart_query uid role (now - days * 86400000000)%Z) (exam_attempts st)).
  assert (Hok : Forall (day_ok src)
     (fold_left (fun dd a => bump_day (day_of (a_started_at a)) a dd)
        (sort_by (fun x y => a_started_at x <? a_started_at y) src) [])).
  { apply fold_bump_ok; [|constructor].
    intros x Hx; exact (Permutation_in _ (sort_by_perm _ _) Hx). }
  apply Forall_forall; intros p Hp; apply in_map_iff in Hp as ([k d] & <- & Hin).
  apply (Permutation_in _ (sort_by_perm _ _)) in Hin.
  rewrite Forall_forall in Hok; destruct (Hok _ Hin) as (H1 & H2 & a & Ha & Hday).
  cbn [snd fst] in *; unfold chart_point; cbn [cp_attempts cp_pass_rate cp_date].
  split; [exact H1|]; split.
  - replace (0 <? dd_attempts d)%Z with true by (symmetry; apply Z.ltb_lt, H1).
    apply py_round2_bounds, ratio100_bounds; lia.
  - exists a; unfold src in Ha; apply filter_In in Ha as [Ha Hq].
    split; [exact Ha|]; split; [|split; [exact Hq|exact Hday]].
    unfold chart_query in Hq; apply andb_true_iff in Hq as [_ Hq]; exact Hq.
Qed.

(** X24: the dates of [get_performance_chart] strictly increase: the chart
    has one point per day, in chronological order. *)
Theorem chart_dates_increasing st uid role days now :
  Sorted Z.lt (map cp_date (get_performance_chart st uid role days now)).
Proof.
  unfold get_performance_chart; cbv zeta; rewrite map_map.
  rewrite (map_ext _ fst) by (intros [k d]; reflexivity).
  apply sorted_le_nodup_lt.
  - apply sorted_map, (sort_by_sorted (fun x y => fst x <= fst y)%Z (fun x y => fst x <? fst y)).
    + intros x y H; apply Z.ltb_lt in H; lia.
    + intros x y H; apply Z.ltb_ge in H; lia.
  - eapply Permutation_NoDup; [symmetry; apply Permutation_map, sort_by_perm|].
    apply fold_bump_nodup; constructor.
Qed.

(** X25: [get_leaderboard] ranks its entries 1, 2, 3, ... in order; it
    lists [min limit n] users, where [n] is the number of active students;
    each listed user is a stored active student; and the XP points never
    increase down the list. *)
Theorem leaderboard_ranking users limit :
  map fst (get_leaderboard users limit)
    = map (fun i => (Z.of_nat i + 1)%Z) (seq 0 (List.length (get_leaderboard users limit))) /\
  List.length (get_leaderboard users limit)
    = Nat.min limit (List.length
        (filter (fun u => UserRole_eqb (ud_role u) STUDENT && ud_is_active u) users)) /\
  Forall (fun u => In u users /\ ud_role u = STUDENT /\ ud_is_active u = true)
    (map snd (get_leaderboard users limit)) /\
  Sorted (fun u v => (ud_xp_points v <= ud_xp_points u)%Z) (map snd (get_leaderboard users limit)).
Proof.
  unfold get_leaderboard; cbv zeta.
  set (top := firstn limit (sort_by (fun x y => ud_xp_points y <? ud_xp_points x)
                (filter (fun u => UserRole_eqb (ud_role u) STUDENT && ud_is_active u) users))).
  assert (Hl : List.length (map (fun i => (Z.of_nat i + 1)%Z) (seq 0 (List.length top)))
               = List.length top) by (rewrite length_map, length_seq; reflexivity).
  rewrite map_fst_combine, map_snd_combine, length_combine, Hl, Nat.min_id by exact Hl.
  split; [reflexivity|]; split.
  - unfold top; rewrite length_firstn, (Permutation_length (sort_by_perm _ _)); reflexivity.
  - split.
    + apply Forall_forall; intros u Hu; unfold top in Hu.
      apply in_firstn_in, (Permutation_in _ (sort_by_perm _ _)), filter_In in Hu as [Hu Hq].
      apply andb_true_iff in Hq as [Hr Ha]; split; [exact Hu|split; [|exact Ha]].
      destruct (ud_role u); simpl in Hr; congruence.
    + apply sorted_firstn, (sort_by_sorted _ (fun x y => ud_xp_points y <? ud_xp_points x)).
      * intros x y H; apply Z.ltb_lt in H; lia.
      * intros x y H; apply Z.ltb_ge in H; lia.
Qed.

(** ** Identities across sequences of requests *)

Lemma ids_extend_same st st' :
  questions st' = questions st ->
  map e_id (exams st') = map e_id (exams st) ->
  map a_id (exam_attempts st') = map a_id (exam_attempts st) -> ids_extend st st'.
Proof.
  intros Hq He Ha; unfold ids_extend; rewrite Hq, He, Ha.
  split; [reflexivity|split; [exists []; rewrite app_nil_r; reflexivity|]].
  split; [exists []; rewrite app_nil_r; reflexivity|auto].
Qed.

Lemma ids_extend_new_exam st e :
  e_id e = new_oid (map e_id (exams st)) ->
  ids_extend st (mkDB (questions st) (exams st ++ [e]) (exam_attempts st) (users_xp st)).
Proof.
  intros Hid; unfold ids_extend; cbn [questions exams exam_attempts]; rewrite map_app; simpl.
  split; [reflexivity|split; [eexists; reflexivity|]].
  split; [exists []; rewrite app_nil_r; reflexivity|split; [|auto]].
  intros H; apply NoDup_app_one; [exact H|rewrite Hid; apply new_oid_fresh].
Qed.

Lemma ids_extend_new_attempt st a :
  a_id a = new_oid (map a_id (exam_attempts st)) ->
  ids_extend st (mkDB (questions st) (exams st) (exam_attempts st ++ [a]) (users_xp st)).
Proof.
  intros Hid; unfold ids_extend; cbn [questions exams exam_attempts]; rewrite map_app; simpl.
  split; [reflexivity|split; [exists []; rewrite app_nil_r; reflexivity|]].
  split; [eexists; reflexivity|split; [auto|]].
  intros H; apply NoDup_app_one; [exact H|rewrite Hid; apply new_oid_fresh].
Qed.

Lemma ids_extend_refl st : ids_extend st st.
Proof. apply ids_extend_same; reflexivity. Qed.

Lemma ids_extend_trans st1 st2 st3 :
  ids_extend st1 st2 -> ids_extend st2 st3 -> ids_extend st1 st3.
Proof.
  intros (Q1 & (l1 & E1) & (m1 & A1) & N1 & M1) (Q2 & (l2 & E2) & (m2 & A2) & N2 & M2).
  split; [congruence|].
  split; [exists (l1 ++ l2); rewrite E2, E1, app_assoc; reflexivity|].
  split; [exists (m1 ++ m2); rewrite A2, A1, app_assoc; reflexivity|].
  split; intros H; auto.
Qed.

Lemma run_op_ids_extend st o : ids_extend st (run_op st o).
Proof.
  destruct o as [d|id u|id|id|id uid now|aid uid ans now|aid uid ans now]; cbn [run_op].
  - unfold create_exam; cbv zeta; cbn [fst]; apply ids_extend_new_exam; reflexivity.
  - unfold update_exam; destruct (find_exam st id) as [ex|]; [|apply ids_extend_refl].
    destruct (negb _ && _); cbv zeta.
    + apply ids_extend_new_exam; reflexivity.
    + destruct (find_exam _ id); [|apply ids_extend_refl].
      apply ids_extend_same; [reflexivity| |reflexivity]; cbn [exams].
      apply map_update_first; intros x; destruct (u_question_ids u); reflexivity.
  - unfold publish_exam; destruct (find_exam st id) as [ex|]; [|apply ids_extend_refl].
    destruct (e_question_ids ex); [apply ids_extend_refl|].
    apply ids_extend_same; [reflexivity| |reflexivity]; apply map_update_first; reflexivity.
  - unfold archive_exam; destruct (find_exam st id) as [ex|]; [|apply ids_extend_refl].
    apply ids_extend_same; [reflexivity| |reflexivity]; apply map_update_first; reflexivity.
  - unfold start_exam; destruct (find_exam st id) as [ex|]; [|apply ids_extend_refl].
    destruct (negb _); [apply ids_extend_refl|].
    destruct (find_first _ _); [apply ids_extend_refl|].
    apply ids_extend_new_attempt; reflexivity.
  - unfold sync_answers; destruct (find_attempt st aid) as [a|]; [|apply ids_extend_refl].
    destruct (negb _); [apply ids_extend_refl|]; destruct (negb _); [apply ids_extend_refl|].
    apply ids_extend_same; [reflexivity|reflexivity|]; apply map_update_first; reflexivity.
  - unfold submit_exam; destruct (find_attempt st aid) as [a|]; [|apply ids_extend_refl].
    destruct (negb _); [apply ids_extend_refl|]; destruct (negb _); [apply ids_extend_refl|].
    destruct (find_exam st (a_exam_id a)) as [ex|]; [|apply ids_extend_refl].
    apply ids_extend_same; [reflexivity|reflexivity|]; apply map_update_first; reflexivity.
Qed.

(** X26: whatever sequence of requests runs, the question bank is left as
    it is, no exam or attempt id is ever removed or changed (the ids of the
    start are a prefix of the ids at the end) and ids stay distinct: a new
    exam or attempt always gets an id not in use. *)
Theorem run_ops_ids st os : ids_extend st (run_ops st os).
Proof.
  unfold run_ops; revert st; induction os as [|o os IH]; intros st; simpl.
  - apply ids_extend_refl.
  - eapply ids_extend_trans; [apply run_op_ids_extend|apply IH].
Qed.
